(** * Contact / site-settings / portfolio backend: model and checked properties

    A shallow embedding of [main.py] and [schemas.py].

    - Python dictionaries (request payloads, validated models, stored
      documents, query filters) are finite maps [gmap string value].
    - A collection is the list of its documents in insertion order; the
      database maps collection names to collections.
    - Request handlers run in a small state-and-exception monad over the
      module-level database handle ([None] when no connection exists).
    - Strings are the UTF-8 encoding of Python's strings, one [ascii] per
      byte; [len] counts characters, that is the bytes which do not continue
      a character.
    - JSON numbers with a fraction, arrays and objects are kept as opaque
      [VOther] values: no field type of the four schemas accepts them as they
      are, and what pydantic's lax mode makes of them is a parameter. *)

From Stdlib Require Import ZArith NArith Ascii String List Bool Lia.
From stdpp Require Import base option list gmap strings fin_maps pretty.

Local Open Scope string_scope.
Local Open Scope Z_scope.
Local Open Scope list_scope.

(** ** Values *)

(** [bson.ObjectId]: the raw bytes of the identifier. *)
Definition ObjectId := list N.

Inductive value :=
| VNone
| VBool (b : bool)
| VInt (z : Z)
| VStr (s : string)
| VObjectId (o : ObjectId)
| VOther (repr : string).

#[global] Instance value_eq_dec : EqDecision value.
Proof. solve_decision. Defined.

Abbreviation dict := (gmap string value).

(** ** Characters of a string *)

(** A byte of the form 10xxxxxx continues a character of a UTF-8 string. *)
Definition is_continuation (c : ascii) : bool :=
  let n := N_of_ascii c in
  ((128 <=? n) && (n <? 192))%N.

(** The number of characters of a string: what Python's [len] returns. *)
Fixpoint char_count (s : string) : nat :=
  match s with
  | EmptyString => O
  | String c s' => if is_continuation c then char_count s' else S (char_count s')
  end.

(** The first [n] characters of a string: the slice [s[:n]]. *)
Fixpoint take_chars (n : nat) (s : string) : string :=
  match s with
  | EmptyString => EmptyString
  | String c s' =>
      if is_continuation c then String c (take_chars n s')
      else match n with
           | O => EmptyString
           | S n' => String c (take_chars n' s')
           end
  end.

(** ** bson.ObjectId *)

Module bson.

(** ASCII white space, skipped by [bytes.fromhex] between two bytes. *)
Definition is_space (c : ascii) : bool :=
  let n := N_of_ascii c in
  (((9 <=? n) && (n <=? 13)) || (n =? 32))%N.

Definition hex_digit (c : ascii) : option N :=
  let n := N_of_ascii c in
  if ((48 <=? n) && (n <=? 57))%N then Some (n - 48)%N
  else if ((97 <=? n) && (n <=? 102))%N then Some (n - 87)%N
  else if ((65 <=? n) && (n <=? 70))%N then Some (n - 55)%N
  else None.

(** [bytes.fromhex]: pairs of hex digits, white space allowed between
    pairs; anything else is a [ValueError] ([None]). *)
Fixpoint fromhex (s : string) : option (list N) :=
  match s with
  | EmptyString => Some []
  | String c rest =>
      if is_space c then fromhex rest
      else match hex_digit c, rest with
           | Some hi, String c' rest' =>
               match hex_digit c' with
               | Some lo => cons (16 * hi + lo)%N <$> fromhex rest'
               | None => None
               end
           | _, _ => None
           end
  end.

(** [ObjectId(oid)] for a [str] argument: exactly 24 characters that
    [bytes.fromhex] accepts; otherwise [InvalidId] ([None]). *)
Definition parse (oid : string) : option ObjectId :=
  if Nat.eqb (String.length oid) 24 then fromhex oid else None.

Definition hex_char (n : N) : ascii :=
  ascii_of_N (if (n <? 10)%N then n + 48 else n + 87)%N.

(** [binascii.hexlify]: two lower-case hex digits per byte. *)
Fixpoint hexlify (bs : list N) : string :=
  match bs with
  | [] => EmptyString
  | b :: bs' => String (hex_char (b / 16)%N) (String (hex_char (b mod 16)%N) (hexlify bs'))
  end.

(** [str(ObjectId)] *)
Definition to_str (o : ObjectId) : string := hexlify o.

(** The [k] low-order bytes of [n], most significant first. *)
Fixpoint be_bytes (k : nat) (n : N) : list N :=
  match k with
  | O => []
  | S k' => be_bytes k' (n / 256)%N ++ [(n mod 256)%N]
  end.

(** A freshly generated identifier is 12 bytes long; the store's source of
    fresh identifiers is modelled as a counter. *)
Definition fresh (counter : N) : ObjectId := be_bytes 12 counter.

End bson.

(** [str(v)] for the values that can sit under a document's ["_id"] key. *)
Definition py_str (v : value) : string :=
  match v with
  | VNone => "None"
  | VBool true => "True"
  | VBool false => "False"
  | VInt z => pretty z
  | VStr s => s
  | VObjectId o => bson.to_str o
  | VOther repr => repr
  end.

(** Truthiness of an optional string argument ([if tag]). *)
Definition truthy_opt_str (s : option string) : bool :=
  match s with
  | None => false
  | Some EmptyString => false
  | Some _ => true
  end.

(** ** Schema validation (pydantic) *)

Module pydantic.

Inductive error_type :=
| missing
| string_type
| string_too_short
| string_too_long
| email_invalid
| int_invalid
| greater_than_equal
| bool_invalid.

(** One entry of [ValidationError.errors()]: the offending field and the
  kind of violation. *)
Record error := Error { loc : string; type : error_type }.

(** The annotation of a field, with the constraints given in [Field(...)]. *)
Inductive annotation :=
| Str (min_length max_length : option Z)
| EmailStr
| Int (ge : option Z)
| Bool.

(** A field of a model: [optional] is [Optional[...]] (the value [None] is
  accepted); [field_default = None] is a required field ([Field(...)] with an
  ellipsis, or a bare annotation). *)
Record field := Field {
name : string;
ann : annotation;
optional : bool;
field_default : option value
}.

Definition schema := list field.

Section Pydantic.

(** Library behaviour taken as parameters: the e-mail syntax check of
    [EmailStr] (which returns the normalised address), and the lax-mode
    coercion of a non-[int] input to [int] and of a non-[bool] input to
    [bool]. *)
Variable validate_email : string → option string.
Variable lax_int : value → option Z.
Variable lax_bool : value → option bool.

Definition len (s : string) : Z := Z.of_nat (char_count s).

Definition check_str (min_length max_length : option Z) (s : string)
  : error_type + value :=
  match min_length with
  | Some lo => if len s <? lo then inl string_too_short else
      match max_length with
      | Some hi => if hi <? len s then inl string_too_long else inr (VStr s)
      | None => inr (VStr s)
      end
  | None =>
      match max_length with
      | Some hi => if hi <? len s then inl string_too_long else inr (VStr s)
      | None => inr (VStr s)
      end
  end.

Definition check_int (ge : option Z) (z : Z) : error_type + value :=
  match ge with
  | Some lo => if z <? lo then inl greater_than_equal else inr (VInt z)
  | None => inr (VInt z)
  end.

(** Validation of one present, non-[None] input against an annotation. *)
Definition validate_ann (a : annotation) (v : value) : error_type + value :=
  match a with
  | Str lo hi =>
      match v with
      | VStr s => check_str lo hi s
      | _ => inl string_type
      end
  | EmailStr =>
      match v with
      | VStr s =>
          match validate_email s with
          | Some s' => inr (VStr s')
          | None => inl email_invalid
          end
      | _ => inl string_type
      end
  | Int ge =>
      match v with
      | VInt z => check_int ge z
      | _ =>
          match lax_int v with
          | Some z => check_int ge z
          | None => inl int_invalid
          end
      end
  | Bool =>
      match v with
      | VBool b => inr (VBool b)
      | _ =>
          match lax_bool v with
          | Some b => inr (VBool b)
          | None => inl bool_invalid
          end
      end
  end.

(** One field against the payload: an absent key takes the default (or is
    an error for a required field), [None] is accepted by an optional
    field, anything else is validated against the annotation. *)
Definition validate_field (f : field) (payload : dict) : error + value :=
  match payload !! name f with
  | None =>
      match field_default f with
      | Some d => inr d
      | None => inl (Error (name f) missing)
      end
  | Some VNone =>
      if optional f then inr VNone
      else match validate_ann (ann f) VNone with
           | inl t => inl (Error (name f) t)
           | inr v => inr v
           end
  | Some v =>
      match validate_ann (ann f) v with
      | inl t => inl (Error (name f) t)
      | inr v' => inr v'
      end
  end.

(** All fields are validated, in declaration order; every error is
    collected. Keys of the payload that name no field are never read. *)
Fixpoint validate_fields (fs : schema) (payload : dict) : list error * dict :=
  match fs with
  | [] => ([], ∅)
  | f :: fs' =>
      let '(errs, m) := validate_fields fs' payload in
      match validate_field f payload with
      | inl e => (e :: errs, m)
      | inr v => (errs, <[name f := v]> m)
      end
  end.

(** Construction of a model from the payload's keys: the model instance (as the dictionary of its field
    values), or the errors of a [ValidationError]. *)
Definition model_validate (fs : schema) (payload : dict) : list error + dict :=
  match validate_fields fs payload with
  | ([], m) => inr m
  | (errs, _) => inl errs
  end.

End Pydantic.

(** [model.model_dump()] *)
Definition model_dump (m : dict) : dict := m.

End pydantic.
Import pydantic.

(** ** schemas.py *)

Definition ContactMessage : schema :=
  [ Field "name" (Str (Some 2) (Some 120)) false None;
    Field "email" EmailStr false None;
    Field "message" (Str (Some 10) (Some 5000)) false None;
    Field "company" (Str None (Some 200)) true (Some VNone);
    Field "phone" (Str None (Some 50)) true (Some VNone) ].

Definition SiteSettings : schema :=
  [ Field "hero_title" (Str None None) false
      (Some (VStr "INNOVATE. BUILD. TRANSFORM WITH AXIOM."));
    Field "hero_subtitle" (Str None None) false
      (Some (VStr "We design smart digital experiences that move businesses forward."));
    Field "whatsapp_number" (Str None None) true (Some VNone);
    Field "contact_email" EmailStr true (Some VNone);
    Field "address_line" (Str None None) true (Some VNone);
    Field "city" (Str None None) true (Some VNone);
    Field "country" (Str None None) true (Some VNone);
    Field "stat_projects" (Int (Some 0)) true (Some (VInt 0));
    Field "stat_clients" (Int (Some 0)) true (Some (VInt 0));
    Field "stat_awards" (Int (Some 0)) true (Some (VInt 0));
    Field "theme_default_dark" Bool false (Some (VBool true)) ].

Definition Project : schema :=
  [ Field "title" (Str None None) false None;
    Field "tag" (Str None None) false None;
    Field "image_url" (Str None None) false None;
    Field "description" (Str None None) true (Some VNone);
    Field "case_study_url" (Str None None) true (Some VNone);
    Field "featured" Bool false (Some (VBool false));
    Field "order" (Int (Some 0)) true (Some VNone) ].

Definition ProjectUpdate : schema :=
  [ Field "title" (Str None None) true (Some VNone);
    Field "tag" (Str None None) true (Some VNone);
    Field "image_url" (Str None None) true (Some VNone);
    Field "description" (Str None None) true (Some VNone);
    Field "case_study_url" (Str None None) true (Some VNone);
    Field "featured" Bool true (Some VNone);
    Field "order" (Int (Some 0)) true (Some VNone) ].

(** ** The document store *)

(** A database: its collections (documents in insertion order) and the
    source of fresh identifiers. *)
Record database := Database {
  collections : gmap string (list dict);
  counter : N
}.

Definition coll (d : database) (cname : string) : list dict :=
  default [] (collections d !! cname).

Definition set_coll (d : database) (cname : string) (docs : list dict) : database :=
  Database (<[cname := docs]> (collections d)) (counter d).

(** [d.get(k)] *)
Definition dict_get (d : dict) (k : string) : value := default VNone (d !! k).

(** [it["_id"] = str(it.get("_id"))] *)
Definition stringify_id (it : dict) : dict :=
  <["_id" := VStr (py_str (dict_get it "_id"))]> it.

(** An equality filter: every key of the filter is bound to the same value
    in the document; the empty filter matches every document. *)
Definition matches (flt doc : dict) : bool :=
  bool_decide (map_Forall (λ k v, doc !! k = Some v) flt).

Module pymongo.

(** What bson can encode: an integer must fit in 8 bytes; the encoder
    raises [OverflowError] otherwise, before anything is sent to the
    store. *)
Definition fits_int64 (v : value) : Prop :=
  match v with
  | VInt z => - 2 ^ 63 ≤ z < 2 ^ 63
  | _ => True
  end.

#[global] Instance fits_int64_dec v : Decision (fits_int64 v).
Proof. destruct v; cbn; apply _. Defined.

Definition encodable (d : dict) : Prop := map_Forall (λ _ v, fits_int64 v) d.

#[global] Instance encodable_dec d : Decision (encodable d).
Proof. unfold encodable. apply _. Defined.

(** [col.find(flt)] *)
Definition find (flt : dict) (docs : list dict) : list dict :=
  List.filter (matches flt) docs.

(** [col.find_one(flt)] *)
Definition find_one (flt : dict) (docs : list dict) : option dict :=
  head (find flt docs).

(** What the store does for an update with [$set]: the first matching
    document gets every key of [upd]; the result carries [matched_count]. *)
Fixpoint set_first (flt upd : dict) (docs : list dict) : list dict * Z :=
  match docs with
  | [] => ([], 0)
  | d :: ds =>
      if matches flt d then ((upd ∪ d) :: ds, 1)
      else let '(ds', n) := set_first flt upd ds in (d :: ds', n)
  end.

(** [col.update_one(flt, {"$set": upd})]: the filter and the update are
    encoded first, which fails ([None], an [OverflowError]) on an integer
    beyond 8 bytes and leaves the store alone; otherwise the store applies
    the update. *)
Definition update_one (flt upd : dict) (docs : list dict) : option (list dict * Z) :=
  if decide (encodable flt ∧ encodable upd) then Some (set_first flt upd docs)
  else None.

(** What the store does for a delete: the first matching document is
    removed; the result carries [deleted_count]. *)
Fixpoint remove_first (flt : dict) (docs : list dict) : list dict * Z :=
  match docs with
  | [] => ([], 0)
  | d :: ds =>
      if matches flt d then (ds, 1)
      else let '(ds', n) := remove_first flt ds in (d :: ds', n)
  end.

(** [col.delete_one(flt)]: the filter is encoded first, as for an update. *)
Definition delete_one (flt : dict) (docs : list dict) : option (list dict * Z) :=
  if decide (encodable flt) then Some (remove_first flt docs) else None.

(** [col.insert_one(doc)]: the document is stored under a fresh ["_id"],
    after the documents already there. *)
Definition insert_one (cname : string) (doc : dict) (d : database)
  : ObjectId * database :=
  let oid := bson.fresh (counter d) in
  (oid, Database (<[cname := (coll d cname ++ [<["_id" := VObjectId oid]> doc])%list]>
                    (collections d))
                 (counter d + 1)%N).

End pymongo.

(** ** Exceptions and the handler monad *)

Inductive exn :=
| HTTPException (status_code : Z) (detail : detail)
| ValidationError (errors : list error)
| InvalidId (oid : string)
| StorageUnavailable
| KeyError (key : string)
| OverflowError (msg : string)
| Exception (msg : string)
with detail :=
| Text (s : string)
| Errors (errs : list error)
| StrOf (e : exn).

Inductive outcome (A : Type) :=
| Return (a : A)
| Raise (e : exn).
Arguments Return {A} a.
Arguments Raise {A} e.

(** The state is the module-level handle [database.db]: [None] when no
    connection exists. An exception leaves the state as it is at the raise. *)
Definition M (A : Type) : Type := option database → outcome A * option database.

#[global] Instance M_ret : MRet M := λ A a st, (Return a, st).
#[global] Instance M_bind : MBind M := λ A B f m st,
  match m st with
  | (Return a, st') => f a st'
  | (Raise e, st') => (Raise e, st')
  end.

Definition raise {A} (e : exn) : M A := λ st, (Raise e, st).

(** [try: body / except cls as e: handler e] *)
Definition try_except {A} (body : M A) (cls : exn → bool) (handler : exn → M A) : M A :=
  λ st, match body st with
        | (Return a, st') => (Return a, st')
        | (Raise e, st') => if cls e then handler e st' else (Raise e, st')
        end.

(** [except ValidationError] *)
Definition is_ValidationError (e : exn) : bool :=
  match e with ValidationError _ => true | _ => false end.

(** [except Exception]: every exception of the model, [HTTPException]
    included, is an instance of [Exception]. *)
Definition is_Exception (e : exn) : bool := true.

(** [db is None] *)
Definition db_is_None : M bool := λ st, (Return (bool_decide (st = None)), st).

(** [ObjectId(s)] *)
Definition ObjectId_of (s : string) : M ObjectId :=
  match bson.parse s with
  | Some o => mret o
  | None => raise (InvalidId s)
  end.

(** A writing call on [db[cname]]; on a [None] handle the subscript itself
    fails. A call that bson cannot encode raises [OverflowError] and writes
    nothing. A collection that does not exist yet is read as empty and is
    not created by an update or a delete. *)
Definition on_collection {A} (cname : string)
    (op : list dict → option (list dict * A)) : M A :=
  λ st, match st with
        | Some d =>
            match op (coll d cname) with
            | Some (docs, a) =>
                (Return a, Some (match collections d !! cname with
                                 | Some _ => set_coll d cname docs
                                 | None => d
                                 end))
            | None =>
                (Raise (OverflowError "MongoDB can only handle up to 8-byte ints"), st)
            end
        | None => (Raise (Exception "'NoneType' object is not subscriptable"), st)
        end.

Definition col_find_one (cname : string) (flt : dict) : M (option dict) :=
  λ st, match st with
        | Some d => (Return (pymongo.find_one flt (coll d cname)), st)
        | None => (Raise (Exception "'NoneType' object is not subscriptable"), st)
        end.

Definition col_update_one (cname : string) (flt upd : dict) : M Z :=
  on_collection cname (pymongo.update_one flt upd).

Definition col_delete_one (cname : string) (flt : dict) : M Z :=
  on_collection cname (pymongo.delete_one flt).

(** ** The database module *)

(** Modelled from the spec: [database.create_document] is not among the
    sources. "inserts one document; returns the assigned identifier as an
    opaque string. Fails with StorageUnavailable if no store connection
    exists". *)
Definition create_document (collection_name : string) (data : dict) : M string :=
  λ st, match st with
        | None => (Raise StorageUnavailable, st)
        | Some d =>
            let '(oid, d') := pymongo.insert_one collection_name data d in
            (Return (bson.to_str oid), Some d')
        end.

(** Modelled from the spec: [database.get_documents] is not among the
    sources. "returns documents matching an equality filter (empty filter =
    all documents), each with its identifier attached as a string field",
    with "an optional result-count cap". *)
Definition get_documents (collection_name : string) (filter_dict : dict)
    (limit : option nat) : M (list dict) :=
  λ st, match st with
        | None => (Raise StorageUnavailable, st)
        | Some d =>
            let found := pymongo.find filter_dict (coll d collection_name) in
            let capped := match limit with
                          | Some n => take n found
                          | None => found
                          end in
            (Return (stringify_id <$> capped), st)
        end.

(** ** main.py *)

(** What a handler returns: a JSON object or a JSON array of objects. *)
Inductive body :=
| Obj (d : dict)
| Arr (items : list dict).

(** [e.errors()] *)
Definition errors_of (e : exn) : list error :=
  match e with
  | ValidationError errs => errs
  | _ => []
  end.

(** Truthiness of the result of [find_one]: [None] and the empty dictionary
    are false. *)
Definition truthy_opt_dict (o : option dict) : bool :=
  match o with
  | Some d => negb (bool_decide (d = ∅))
  | None => false
  end.

(** The value of an optional string argument. *)
Definition opt_str_value (s : option string) : value :=
  match s with
  | Some t => VStr t
  | None => VNone
  end.

(** [d[k]] *)
Definition subscript (d : dict) (k : string) : M value :=
  match d !! k with
  | Some v => mret v
  | None => raise (KeyError k)
  end.

Section Handlers.

Variable validate_email : string → option string.
Variable lax_int : value → option Z.
Variable lax_bool : value → option bool.

(** Construction of a model instance; raises [ValidationError]. *)
Definition construct (fs : schema) (payload : dict) : M dict :=
  match model_validate validate_email lax_int lax_bool fs payload with
  | inr m => mret m
  | inl errs => raise (ValidationError errs)
  end.

(** The first [try] of the writing handlers: a [ValidationError] becomes
    a 422 carrying the list of errors. *)
Definition validated (fs : schema) (payload : dict) : M dict :=
  try_except (construct fs payload) is_ValidationError
    (λ e, raise (HTTPException 422 (Errors (errors_of e)))).

(** The last [except] of every handler: any exception becomes a 500
    carrying [str(e)]. *)
Definition server_error {A} (e : exn) : M A :=
  raise (HTTPException 500 (StrOf e)).

Definition submit_contact (payload : dict) : M body :=
  data ← validated ContactMessage payload;
  try_except
    (inserted_id ← create_document "contactmessage" data;
     mret (Obj {[ "status" := VStr "ok"; "id" := VStr inserted_id ]}))
    is_Exception server_error.

Definition get_settings : M body :=
  try_except
    (items ← get_documents "sitesettings" ∅ (Some 1%nat);
     match items with
     | doc :: _ => mret (Obj (stringify_id doc))
     | [] =>
         fresh_model ← construct SiteSettings ∅;
         let dflt := model_dump fresh_model in
         _ ← create_document "sitesettings" dflt;
         mret (Obj dflt)
     end)
    is_Exception server_error.

Definition upsert_settings (payload : dict) : M body :=
  data ← validated SiteSettings payload;
  try_except
    (none ← db_is_None;
     if (none : bool) then raise (Exception "Database not available")
     else
       existing ← col_find_one "sitesettings" ∅;
       if truthy_opt_dict existing then
         _id ← subscript (default ∅ existing) "_id";
         _ ← col_update_one "sitesettings" {[ "_id" := _id ]} (model_dump data);
         mret (Obj {[ "status" := VStr "updated" ]})
       else
         _id ← create_document "sitesettings" data;
         mret (Obj {[ "status" := VStr "created"; "id" := VStr _id ]}))
    is_Exception server_error.

Definition list_projects (tag : option string) : M body :=
  try_except
    (let filter_q : dict :=
       if truthy_opt_str tag then {[ "tag" := opt_str_value tag ]} else ∅ in
     items ← get_documents "project" filter_q None;
     mret (Arr (stringify_id <$> items)))
    is_Exception server_error.

Definition create_project (payload : dict) : M body :=
  data ← validated Project payload;
  try_except
    (_id ← create_document "project" data;
     mret (Obj {[ "status" := VStr "created"; "id" := VStr _id ]}))
    is_Exception server_error.

(** The fields of the update that are not [None]. *)
Definition not_None_items (m : dict) : dict :=
  filter (λ kv, kv.2 ≠ VNone) m.

Definition update_project (project_id : string) (payload : dict) : M body :=
  data ← validated ProjectUpdate payload;
  try_except
    (none ← db_is_None;
     if (none : bool) then raise (Exception "Database not available")
     else
       oid ← ObjectId_of project_id;
       matched_count ← col_update_one "project" {[ "_id" := VObjectId oid ]}
                         (not_None_items (model_dump data));
       if matched_count =? 0
       then raise (HTTPException 404 (Text "Project not found"))
       else mret (Obj {[ "status" := VStr "updated" ]}))
    is_Exception server_error.

Definition delete_project (project_id : string) : M body :=
  try_except
    (none ← db_is_None;
     if (none : bool) then raise (Exception "Database not available")
     else
       oid ← ObjectId_of project_id;
       deleted_count ← col_delete_one "project" {[ "_id" := VObjectId oid ]};
       if deleted_count =? 0
       then raise (HTTPException 404 (Text "Project not found"))
       else mret (Obj {[ "status" := VStr "deleted" ]}))
    is_Exception server_error.

End Handlers.

(** The HTTP status a client sees: 200 for a returned body, the status of
    the [HTTPException] otherwise; an exception that is not an
    [HTTPException] would leave the handler unhandled. *)
Definition status_of {A} (r : outcome A) : option Z :=
  match r with
  | Return _ => Some 200
  | Raise (HTTPException s _) => Some s
  | Raise _ => None
  end.

(** ** Vocabulary of the properties *)

Section Vocabulary.

Variable validate_email : string → option string.
Variable lax_int : value → option Z.
Variable lax_bool : value → option bool.

(** The payload is rejected with an error located at field [k]. *)
Definition rejected_at (fs : schema) (payload : dict) (k : string) : Prop :=
  ∃ errs t, model_validate validate_email lax_int lax_bool fs payload = inl errs
            ∧ Error k t ∈ errs.

(** An optional string field of the payload is absent, [None], or a string
    of at most [hi] characters. *)
Definition optional_str_ok (payload : dict) (k : string) (hi : Z) : Prop :=
  payload !! k = None ∨ payload !! k = Some VNone
  ∨ ∃ s, payload !! k = Some (VStr s) ∧ len s ≤ hi.

(** The [email] key holds a string that the e-mail check accepts. *)
Definition email_ok (payload : dict) : Prop :=
  ∃ e e', payload !! "email" = Some (VStr e) ∧ validate_email e = Some e'.

(** The key is explicitly present in the payload with a value other than
    [None]. *)
Definition given (payload : dict) (k : string) : Prop :=
  ∃ v, payload !! k = Some v ∧ v ≠ VNone.

#[global] Instance given_dec payload k : Decision (given payload k).
Proof.
  unfold given. destruct (payload !! k) as [v|].
  - destruct (decide (v = VNone)) as [Hv|Hv].
    + right. intros (w & Hw & Hne). congruence.
    + left. eauto.
  - right. intros (w & Hw & _). discriminate.
Defined.

(** The input already has the type of the annotation, so that no lax
    coercion applies. *)
Definition native (a : annotation) (v : value) : Prop :=
  match a, v with
  | Str _ _, VStr _ => True
  | Int _, VInt _ => True
  | Bool, VBool _ => True
  | _, _ => False
  end.

(** The response is a client error (404 not found, 422 invalid input, or
    any other 4xx). *)
Definition client_error {A} (r : outcome A) : Prop :=
  ∃ s, status_of r = Some s ∧ 400 ≤ s < 500.

(** What makes a contact payload invalid at key [k]: a required field is
    missing, or a string is outside its length bounds. *)
Inductive contact_violation (payload : dict) : string → Prop :=
| missing_required k :
    k ∈ ["name"; "email"; "message"] → payload !! k = None →
    contact_violation payload k
| name_length s :
    payload !! "name" = Some (VStr s) → len s < 2 ∨ 120 < len s →
    contact_violation payload "name"
| message_length s :
    payload !! "message" = Some (VStr s) → len s < 10 ∨ 5000 < len s →
    contact_violation payload "message"
| company_length s :
    payload !! "company" = Some (VStr s) → 200 < len s →
    contact_violation payload "company"
| phone_length s :
    payload !! "phone" = Some (VStr s) → 50 < len s →
    contact_violation payload "phone".

(** No stored document carries the identifier. *)
Definition absent (oid : ObjectId) (docs : list dict) : Prop :=
  Forall (λ doc, doc !! "_id" ≠ Some (VObjectId oid)) docs.

(** The number of settings documents the store holds. *)
Definition settings_count (st : option database) : nat :=
  match st with
  | Some d => length (coll d "sitesettings")
  | None => O
  end.

(** The state after [n] successive calls of [get_settings]. *)
Fixpoint get_settings_times (n : nat) (st : option database) : option database :=
  match n with
  | O => st
  | S n' => (get_settings validate_email lax_int lax_bool (get_settings_times n' st)).2
  end.

End Vocabulary.

(** ** Stand-ins for the library parameters, for the concrete examples *)

(** An e-mail check that accepts strings holding an ["@"] and returns them
    unchanged. *)
Definition example_validate_email (s : string) : option string :=
  if bool_decide ("@"%char ∈ list_ascii_of_string s) then Some s else None.

(** No lax coercion at all. *)
Definition example_lax_int (v : value) : option Z := None.
Definition example_lax_bool (v : value) : option bool := None.

(** ** Concrete inputs of the examples *)

Module Ex.

Definition zeros : ObjectId := replicate 12 0%N.
Definition zeros_str : string := "000000000000000000000000".

Definition empty_db : database := Database ∅ 0.

Definition contact : dict :=
  {[ "name" := VStr "Al"; "email" := VStr "al@example.org";
     "message" := VStr "0123456789" ]}.

Definition contact_model : dict :=
  {[ "name" := VStr "Al"; "email" := VStr "al@example.org";
     "message" := VStr "0123456789"; "company" := VNone; "phone" := VNone ]}.

Definition contact_without_email : dict :=
  {[ "name" := VStr "Al"; "message" := VStr "0123456789" ]}.

Definition project (oid : ObjectId) (tag : string) : dict :=
  {[ "_id" := VObjectId oid; "title" := VStr "Site Redesign"; "tag" := VStr tag;
     "image_url" := VStr "http://x/y.png"; "description" := VNone;
     "case_study_url" := VNone; "featured" := VBool false; "order" := VNone ]}.

Definition one_project_db : database :=
  Database {[ "project" := [project zeros "Web"] ]} 1.

Definition three_projects_db : database :=
  Database {[ "project" := [project (bson.fresh 0) "Web"; project (bson.fresh 1) "AI";
                            project (bson.fresh 2) "Web"] ]} 3.

Definition set_featured : dict := {[ "featured" := VBool true ]}.

Definition set_featured_model : dict :=
  {[ "title" := VNone; "tag" := VNone; "image_url" := VNone; "description" := VNone;
     "case_study_url" := VNone; "featured" := VBool true; "order" := VNone ]}.

Definition unknown_keys : dict := {[ "is_admin" := VBool true; "_id" := VStr "x" ]}.

Definition old_settings : dict :=
  {[ "_id" := VObjectId zeros; "hero_title" := VStr "Old title";
     "city" := VStr "Pune" ]}.

Definition settings_db : database :=
  Database {[ "sitesettings" := [old_settings] ]} 1.

Definition set_city : dict := {[ "city" := VStr "Goa" ]}.

Definition set_city_model : dict :=
  {[ "hero_title" := VStr "INNOVATE. BUILD. TRANSFORM WITH AXIOM.";
     "hero_subtitle" :=
       VStr "We design smart digital experiences that move businesses forward.";
     "whatsapp_number" := VNone; "contact_email" := VNone; "address_line" := VNone;
     "city" := VStr "Goa"; "country" := VNone; "stat_projects" := VInt 0;
     "stat_clients" := VInt 0; "stat_awards" := VInt 0;
     "theme_default_dark" := VBool true ]}.

End Ex.

(** ** Further concrete inputs *)

Module MoreEx.

Definition new_project : dict :=
  {[ "title" := VStr "Site Redesign"; "tag" := VStr "Web";
     "image_url" := VStr "http://x/y.png" ]}.


Definition only_title : dict := {[ "title" := VStr "Site Redesign" ]}.

Definition third_in_order : dict := <["order" := VInt 3]> new_project.

Definition numeric_title : dict := {[ "title" := VInt 1 ]}.

Definition negative_order : dict := {[ "order" := VInt (-1) ]}.

Definition empty_update_model : dict :=
  {[ "title" := VNone; "tag" := VNone; "image_url" := VNone; "description" := VNone;
     "case_study_url" := VNone; "featured" := VNone; "order" := VNone ]}.

Definition title_field : field := Field "title" (Str None None) false None.

Definition huge_order : dict := {[ "order" := VInt (2 ^ 63) ]}.

Definition huge_order_model : dict :=
  {[ "title" := VNone; "tag" := VNone; "image_url" := VNone; "description" := VNone;
     "case_study_url" := VNone; "featured" := VNone; "order" := VInt (2 ^ 63) ]}.

Definition huge_stat : dict := {[ "stat_projects" := VInt (2 ^ 63) ]}.

Definition huge_stat_model : dict :=
  {[ "hero_title" := VStr "INNOVATE. BUILD. TRANSFORM WITH AXIOM.";
     "hero_subtitle" :=
       VStr "We design smart digital experiences that move businesses forward.";
     "whatsapp_number" := VNone; "contact_email" := VNone; "address_line" := VNone;
     "city" := VNone; "country" := VNone; "stat_projects" := VInt (2 ^ 63);
     "stat_clients" := VInt 0; "stat_awards" := VInt 0;
     "theme_default_dark" := VBool true ]}.

Definition overflow : exn :=
  HTTPException 500 (StrOf (OverflowError "MongoDB can only handle up to 8-byte ints")).

End MoreEx.

(** ** The diagnostic endpoint *)

Module diagnostics.

(** What [test_database] can see of the store handle: its [name] ([None]
    when the object has no such attribute) and the result of
    [list_collection_names()] ([inl] carries [str(e)] of the exception it
    raised). *)
Record handle := Handle {
  db_name : option string;
  list_collection_names : string + list string
}.

(** The outcome of [from database import db]. *)
Inductive import_result :=
| Imported (db : option handle)
| ImportError
| ImportFailed (msg : string).

(** The response dictionary, by key. *)
Record response := Response {
  backend : string;
  database : string;
  database_url : option string;
  database_name : option string;
  connection_status : string;
  collections : list string
}.

Definition set_database (v : string) (r : response) : response :=
  Response (backend r) v (database_url r) (database_name r)
    (connection_status r) (collections r).

Definition set_database_url (v : string) (r : response) : response :=
  Response (backend r) (database r) (Some v) (database_name r)
    (connection_status r) (collections r).

Definition set_database_name (v : string) (r : response) : response :=
  Response (backend r) (database r) (database_url r) (Some v)
    (connection_status r) (collections r).

Definition set_connection_status (v : string) (r : response) : response :=
  Response (backend r) (database r) (database_url r) (database_name r)
    v (collections r).

Definition set_collections (v : list string) (r : response) : response :=
  Response (backend r) (database r) (database_url r) (database_name r)
    (connection_status r) v.

(** [str(e)[:50]] *)
Definition first_50 (msg : string) : string := take_chars 50 msg.

(** [test_database()], given the outcome of the import and [os.getenv]. *)
Definition test_database (imp : import_result) (getenv : string → option string)
  : response :=
  let response :=
    Response "✅ Running" "❌ Not Available" None None "Not Connected" [] in
  let response :=
    match imp with
    | Imported (Some db) =>
        let response := set_database "✅ Available" response in
        let response := set_database_url "✅ Configured" response in
        let response :=
          set_database_name
            (match db_name db with
             | Some n => n
             | None => "✅ Connected"
             end) response in
        let response := set_connection_status "Connected" response in
        match list_collection_names db with
        | inr collections =>
            let response := set_collections (take 10 collections) response in
            set_database "✅ Connected & Working" response
        | inl msg =>
            set_database ("⚠️  Connected but Error: " ++ first_50 msg)%string response
        end
    | Imported None => set_database "⚠️  Available but not initialized" response
    | ImportError =>
        set_database "❌ Database module not found (run enable-database first)" response
    | ImportFailed msg => set_database ("❌ Error: " ++ first_50 msg)%string response
    end in
  let response :=
    set_database_url
      (if truthy_opt_str (getenv "DATABASE_URL") then "✅ Set" else "❌ Not Set")
      response in
  set_database_name
    (if truthy_opt_str (getenv "DATABASE_NAME") then "✅ Set" else "❌ Not Set")
    response.

End diagnostics.

(** A handle whose store lists twelve collections. *)
Definition twelve_collections : diagnostics.handle :=
  diagnostics.Handle (Some "axiom")
    (inr ["a"; "b"; "c"; "d"; "e"; "f"; "g"; "h"; "i"; "j"; "k"; "l"]).

(** ** Further vocabulary *)

(** The ["_id"] entries of a collection, in stored order. *)
Definition ids (docs : list dict) : list (option value) :=
  (λ doc : dict, doc !! "_id") <$> docs.

(** The collection [cname] of a state; empty when there is no connection. *)
Definition coll_of (st : option database) (cname : string) : list dict :=
  match st with
  | Some d => coll d cname
  | None => []
  end.

(** The response carries one of the given status codes. *)
Definition answers {A} (codes : list Z) (r : outcome A) : Prop :=
  ∃ s, status_of r = Some s ∧ s ∈ codes.

(** Every stored settings document carries an ["_id"], as every document
    the store hands out does. *)
Definition settings_have_ids (st : option database) : Prop :=
  Forall (λ doc : dict, is_Some (doc !! "_id")) (coll_of st "sitesettings").

(** Every stored settings document is one that bson can encode, as every
    document that went through the encoder into the store is. *)
Definition settings_encodable (st : option database) : Prop :=
  Forall pymongo.encodable (coll_of st "sitesettings").

(** A field that takes a string: [str] or [EmailStr]. *)
Definition takes_string (a : annotation) : Prop :=
  match a with
  | Str _ _ | EmailStr => True
  | _ => False
  end.


(** * Properties *)

Section Properties.

Variable validate_email : string → option string.
Variable lax_int : value → option Z.
Variable lax_bool : value → option bool.

Local Abbreviation validate_ann := (validate_ann validate_email lax_int lax_bool).
Local Abbreviation validate_field := (validate_field validate_email lax_int lax_bool).
Local Abbreviation validate_fields := (validate_fields validate_email lax_int lax_bool).
Local Abbreviation model_validate := (model_validate validate_email lax_int lax_bool).
Local Abbreviation rejected_at := (rejected_at validate_email lax_int lax_bool).
Local Abbreviation email_ok := (email_ok validate_email).

(** ** Validation *)

Lemma check_str_inr lo hi s v : check_str lo hi s = inr v → v = VStr s.
Proof.
  unfold check_str; intros H.
  repeat (case_match; try discriminate); congruence.
Qed.

Lemma validate_ann_not_None a v v' : validate_ann a v = inr v' → v' ≠ VNone.
Proof.
  unfold pydantic.validate_ann, check_int; intros H ->.
  destruct a; repeat (case_match; simplify_eq); try discriminate;
    match goal with
    | E : check_str _ _ _ = inr _ |- _ => apply check_str_inr in E; discriminate
    end.
Qed.

(** Every error names the field it comes from. *)
Lemma validate_field_loc f p e : validate_field f p = inl e → loc e = name f.
Proof.
  unfold pydantic.validate_field; intros H.
  repeat (case_match; simplify_eq); reflexivity.
Qed.

(** Keys that are not the field's name are never read. *)
Lemma validate_field_union f p extras :
  extras !! name f = None → validate_field f (extras ∪ p) = validate_field f p.
Proof.
  intros Hk. unfold pydantic.validate_field. by rewrite lookup_union_r.
Qed.

Lemma validate_fields_union fs p extras :
  (∀ k, k ∈ name <$> fs → extras !! k = None) →
  validate_fields fs (extras ∪ p) = validate_fields fs p.
Proof.
  induction fs as [|f fs IH]; intros Hk; [reflexivity|].
  cbn [pydantic.validate_fields]. rewrite IH.
  - rewrite validate_field_union; [reflexivity|].
    apply Hk. rewrite fmap_cons. apply elem_of_cons; by left.
  - intros k Hin. apply Hk. rewrite fmap_cons. apply elem_of_cons; by right.
Qed.

(** The errors are those of the fields, in declaration order. *)
Lemma validate_fields_errors fs p e :
  e ∈ (validate_fields fs p).1 ↔ ∃ f, f ∈ fs ∧ validate_field f p = inl e.
Proof.
  induction fs as [|f fs IH]; cbn [pydantic.validate_fields].
  - split; [intros H; inversion H | intros (f & H & _); inversion H].
  - destruct (validate_fields fs p) as [errs m] eqn:E. cbn [fst] in IH.
    destruct (validate_field f p) as [e'|v'] eqn:Ef; cbn [fst].
    + rewrite elem_of_cons, IH. split.
      * intros [->|(g & Hg & Hv)]; [exists f | exists g]; split; auto; constructor; auto.
      * intros (g & Hg & Hv). apply elem_of_cons in Hg as [->|Hg]; [left; congruence | right; eauto].
    + rewrite IH. split.
      * intros (g & Hg & Hv). exists g; split; auto; constructor; auto.
      * intros (g & Hg & Hv). apply elem_of_cons in Hg as [->|Hg]; [congruence | eauto].
Qed.

(** The model binds exactly the fields that validate. *)
Lemma validate_fields_lookup_None fs p k :
  k ∉ name <$> fs → (validate_fields fs p).2 !! k = None.
Proof.
  induction fs as [|f fs IH]; intros Hk; cbn [pydantic.validate_fields].
  - apply lookup_empty.
  - rewrite fmap_cons in Hk. apply not_elem_of_cons in Hk as [Hne Hk].
    destruct (validate_fields fs p) as [errs m]. specialize (IH Hk). cbn [snd] in IH.
    destruct (validate_field f p); cbn [snd]; [assumption|].
    by rewrite lookup_insert_ne.
Qed.

Lemma validate_fields_lookup_Some fs p f v :
  NoDup (name <$> fs) → f ∈ fs → validate_field f p = inr v →
  (validate_fields fs p).2 !! name f = Some v.
Proof.
  induction fs as [|g fs IH]; intros Hnd Hf Hv; [inversion Hf|].
  rewrite fmap_cons in Hnd. apply NoDup_cons in Hnd as [Hg Hnd].
  cbn [pydantic.validate_fields].
  destruct (validate_fields fs p) as [errs m] eqn:E. cbn [snd] in IH.
  apply elem_of_cons in Hf as [->|Hf].
  - rewrite Hv. cbn [snd]. apply lookup_insert_eq.
  - assert (name g ≠ name f).
    { intros Heq. apply Hg. rewrite Heq. apply list_elem_of_fmap. eauto. }
    destruct (validate_field g p); cbn [snd].
    + by apply IH.
    + rewrite lookup_insert_ne by assumption. by apply IH.
Qed.

Lemma model_validate_inr fs p m :
  model_validate fs p = inr m ↔ validate_fields fs p = ([], m).
Proof.
  unfold pydantic.model_validate.
  destruct (validate_fields fs p) as [[|e errs] m']; split; intros H; simplify_eq; reflexivity.
Qed.

Lemma model_validate_inl fs p errs :
  model_validate fs p = inl errs ↔ (validate_fields fs p).1 = errs ∧ errs ≠ [].
Proof.
  unfold pydantic.model_validate.
  destruct (validate_fields fs p) as [[|e es] m']; cbn [fst]; split.
  - discriminate.
  - intros [<- H]. by destruct H.
  - intros H; simplify_eq. split; [reflexivity | discriminate].
  - intros [<- _]. reflexivity.
Qed.

(** A field that fails makes the whole payload fail, with its error in
    the list. *)
Lemma model_validate_field_error fs p f e :
  f ∈ fs → validate_field f p = inl e →
  ∃ errs, model_validate fs p = inl errs ∧ e ∈ errs.
Proof.
  intros Hf He. exists (validate_fields fs p).1.
  assert (e ∈ (validate_fields fs p).1) as Hin.
  { apply validate_fields_errors. eauto. }
  split; [|assumption].
  apply model_validate_inl. split; [reflexivity|].
  intros Hnil. rewrite Hnil in Hin. inversion Hin.
Qed.

(** An accepted payload: every field validated, and the model binds each
    field to its validated value. *)
Lemma model_validate_field_ok fs p m f :
  NoDup (name <$> fs) → model_validate fs p = inr m → f ∈ fs →
  ∃ v, validate_field f p = inr v ∧ m !! name f = Some v.
Proof.
  intros Hnd Hm Hf. apply model_validate_inr in Hm.
  destruct (validate_field f p) as [e|v] eqn:Ev.
  - assert (e ∈ (validate_fields fs p).1) as Hin by (apply validate_fields_errors; eauto).
    rewrite Hm in Hin. inversion Hin.
  - exists v. split; [reflexivity|].
    pose proof (validate_fields_lookup_Some fs p f v Hnd Hf Ev) as H.
    by rewrite Hm in H.
Qed.

Lemma model_validate_lookup_None fs p m k :
  model_validate fs p = inr m → k ∉ name <$> fs → m !! k = None.
Proof.
  intros Hm Hk. apply model_validate_inr in Hm.
  pose proof (validate_fields_lookup_None fs p k Hk) as H. by rewrite Hm in H.
Qed.

(** Fields that all validate make an accepted payload. *)
Lemma model_validate_all_ok fs p :
  (∀ f, f ∈ fs → ∃ v, validate_field f p = inr v) →
  ∃ m, model_validate fs p = inr m.
Proof.
  intros Hall. destruct (validate_fields fs p) as [errs m] eqn:E.
  exists m. apply model_validate_inr. rewrite E. f_equal.
  destruct errs as [|e errs]; [reflexivity|].
  assert (e ∈ (validate_fields fs p).1) as Hin by (rewrite E; left).
  apply validate_fields_errors in Hin as (f & Hf & He).
  destruct (Hall f Hf) as [v Hv]. congruence.
Qed.

Lemma rejected_at_field fs p k :
  rejected_at fs p k ↔ ∃ f t, f ∈ fs ∧ validate_field f p = inl (Error k t).
Proof.
  unfold rejected_at. split.
  - intros (errs & t & Herrs & Hin).
    apply model_validate_inl in Herrs as [<- _].
    apply validate_fields_errors in Hin as (f & Hf & He). eauto.
  - intros (f & t & Hf & He).
    destruct (model_validate_field_error fs p f _ Hf He) as (errs & H1 & H2).
    exists errs, t. auto.
Qed.

(** ** String-length bounds of ContactMessage *)

Lemma check_str_bounds lo hi s :
  check_str (Some lo) (Some hi) s =
    if decide (len s < lo) then inl string_too_short
    else if decide (hi < len s) then inl string_too_long
    else inr (VStr s).
Proof.
  unfold check_str.
  destruct (Z.ltb_spec (len s) lo), (Z.ltb_spec hi (len s));
    repeat case_decide; try reflexivity; lia.
Qed.

Lemma check_str_max hi s :
  check_str None (Some hi) s =
    if decide (hi < len s) then inl string_too_long else inr (VStr s).
Proof.
  unfold check_str.
  destruct (Z.ltb_spec hi (len s)); case_decide; try reflexivity; lia.
Qed.

(** Validation of a string field with both bounds, on a string input. *)
Lemma validate_str_field k lo hi opt dflt p s :
  p !! k = Some (VStr s) →
  validate_field (Field k (Str (Some lo) (Some hi)) opt dflt) p =
    if decide (len s < lo) then inl (Error k string_too_short)
    else if decide (hi < len s) then inl (Error k string_too_long)
    else inr (VStr s).
Proof.
  intros Hk. unfold pydantic.validate_field. cbn [name ann optional field_default].
  rewrite Hk. cbn [pydantic.validate_ann]. rewrite check_str_bounds.
  repeat case_decide; reflexivity.
Qed.

(** Validation of an optional string field with an upper bound. *)
Lemma validate_opt_str_field k hi p :
  optional_str_ok p k hi →
  ∃ v, validate_field (Field k (Str None (Some hi)) true (Some VNone)) p = inr v.
Proof.
  unfold pydantic.validate_field. cbn [name ann optional field_default].
  intros [->|[->|(s & -> & Hs)]]; [by eexists | by eexists |].
  cbn [pydantic.validate_ann]. rewrite check_str_max.
  case_decide; [lia | by eexists].
Qed.

Lemma validate_email_field p :
  email_ok p → ∃ v, validate_field (Field "email" EmailStr false None) p = inr v.
Proof.
  intros (e & e' & He & Hv).
  unfold pydantic.validate_field. cbn [name ann optional field_default].
  rewrite He. cbn [pydantic.validate_ann]. rewrite Hv. by eexists.
Qed.

(** An error located at [k] can only come from the field named [k]. *)
Ltac other_field H :=
  apply validate_field_loc in H; cbn [loc name] in H; discriminate H.

(** C7. The string-length bounds of ContactMessage are inclusive and a
    string is never truncated: a payload is rejected at [name] exactly when
    the name has fewer than 2 or more than 120 characters, and at [message]
    exactly when the message has fewer than 10 or more than 5000; an
    accepted payload keeps both strings as they were given; and with both
    lengths within the bounds (2, 120, 10 and 5000 included) and the other
    fields valid, the payload is accepted. *)
Theorem contact_length_bounds_inclusive (payload : dict) (n msg : string) :
  payload !! "name" = Some (VStr n) →
  payload !! "message" = Some (VStr msg) →
  (rejected_at ContactMessage payload "name" ↔ (len n < 2 ∨ 120 < len n))
  ∧ (rejected_at ContactMessage payload "message" ↔ (len msg < 10 ∨ 5000 < len msg))
  ∧ (∀ m, model_validate ContactMessage payload = inr m →
          m !! "name" = Some (VStr n) ∧ m !! "message" = Some (VStr msg))
  ∧ (2 ≤ len n ≤ 120 → 10 ≤ len msg ≤ 5000 →
     email_ok payload →
     optional_str_ok payload "company" 200 → optional_str_ok payload "phone" 50 →
     ∃ m, model_validate ContactMessage payload = inr m).
Proof.
  intros Hn Hm.
  pose proof (validate_str_field "name" 2 120 false None payload n Hn) as Vn.
  pose proof (validate_str_field "message" 10 5000 false None payload msg Hm) as Vm.
  assert (NoDup (name <$> ContactMessage)) as Hnd by (apply (bool_decide_unpack _); vm_compute; exact I).
  split; [|split; [|split]].
  - rewrite rejected_at_field. split.
    + intros (f & t & Hf & He). unfold ContactMessage in Hf.
      repeat (apply elem_of_cons in Hf as [->|Hf]); try (other_field He).
      * rewrite Vn in He. repeat case_decide; simplify_eq; lia.
      * inversion Hf.
    + intros Hlen.
      assert (∃ t, validate_field (Field "name" (Str (Some 2) (Some 120)) false None)
                     payload = inl (Error "name" t)) as [t Ht].
      { rewrite Vn. repeat case_decide; eauto; lia. }
      eexists _, t. split; [left | exact Ht].
  - rewrite rejected_at_field. split.
    + intros (f & t & Hf & He). unfold ContactMessage in Hf.
      repeat (apply elem_of_cons in Hf as [->|Hf]); try (other_field He).
      * rewrite Vm in He. repeat case_decide; simplify_eq; lia.
      * inversion Hf.
    + intros Hlen.
      assert (∃ t, validate_field (Field "message" (Str (Some 10) (Some 5000)) false None)
                     payload = inl (Error "message" t)) as [t Ht].
      { rewrite Vm. repeat case_decide; eauto; lia. }
      eexists _, t. split; [right; right; left | exact Ht].
  - intros m Hok. split.
    + destruct (model_validate_field_ok ContactMessage payload m
                  (Field "name" (Str (Some 2) (Some 120)) false None) Hnd Hok)
        as (v & Hv & Hl); [left|].
      rewrite Vn in Hv. repeat case_decide; by simplify_eq.
    + destruct (model_validate_field_ok ContactMessage payload m
                  (Field "message" (Str (Some 10) (Some 5000)) false None) Hnd Hok)
        as (v & Hv & Hl); [right; right; left|].
      rewrite Vm in Hv. repeat case_decide; by simplify_eq.
  - intros Hln Hlm He Hc Hp. apply model_validate_all_ok.
    intros f Hf. unfold ContactMessage in Hf.
    repeat (apply elem_of_cons in Hf as [->|Hf]).
    + rewrite Vn. repeat case_decide; try lia. by eexists.
    + by apply validate_email_field.
    + rewrite Vm. repeat case_decide; try lia. by eexists.
    + by apply validate_opt_str_field.
    + by apply validate_opt_str_field.
    + inversion Hf.
Qed.

(** ** Unknown keys *)

(** C8. A payload that carries keys naming no field of the record type
    (ContactMessage, SiteSettings, Project or ProjectUpdate) validates
    exactly as the payload without them: it is accepted whenever the known
    fields are valid, with the same model, and the model binds none of the
    unknown keys, so they are never persisted. *)
Theorem unknown_keys_ignored (fs : schema) (payload extras m : dict) :
  fs ∈ [ContactMessage; SiteSettings; Project; ProjectUpdate] →
  (∀ k, k ∈ name <$> fs → extras !! k = None) →
  model_validate fs payload = inr m →
  model_validate fs (extras ∪ payload) = inr m
  ∧ ∀ k, is_Some (extras !! k) → m !! k = None.
Proof.
  intros _ Hextra Hm. split.
  - unfold pydantic.model_validate in *. by rewrite validate_fields_union.
  - intros k [v Hk]. eapply model_validate_lookup_None; [exact Hm|].
    intros Hin. specialize (Hextra k Hin). congruence.
Qed.

(** ** The store *)

Lemma matches_empty doc : matches ∅ doc = true.
Proof. unfold matches. apply bool_decide_eq_true. apply map_Forall_empty. Qed.

Lemma matches_singleton k v doc :
  matches {[ k := v ]} doc = bool_decide (doc !! k = Some v).
Proof.
  unfold matches. apply bool_decide_ext.
  apply (map_Forall_singleton (λ k' v', doc !! k' = Some v')).
Qed.

Lemma set_first_no_match flt upd docs :
  Forall (λ d, matches flt d = false) docs →
  pymongo.set_first flt upd docs = (docs, 0).
Proof.
  induction 1 as [|d ds Hd _ IH]; cbn [pymongo.set_first]; [reflexivity|].
  by rewrite Hd, IH.
Qed.

Lemma set_first_match flt upd l1 doc l2 :
  Forall (λ d, matches flt d = false) l1 → matches flt doc = true →
  pymongo.set_first flt upd (l1 ++ doc :: l2) = (l1 ++ (upd ∪ doc) :: l2, 1).
Proof.
  intros Hl1 Hdoc. induction Hl1 as [|d ds Hd _ IH]; cbn [pymongo.set_first app].
  - by rewrite Hdoc.
  - by rewrite Hd, IH.
Qed.

Lemma remove_first_no_match flt docs :
  Forall (λ d, matches flt d = false) docs →
  pymongo.remove_first flt docs = (docs, 0).
Proof.
  induction 1 as [|d ds Hd _ IH]; cbn [pymongo.remove_first]; [reflexivity|].
  by rewrite Hd, IH.
Qed.

Lemma remove_first_match flt l1 doc l2 :
  Forall (λ d, matches flt d = false) l1 → matches flt doc = true →
  pymongo.remove_first flt (l1 ++ doc :: l2) = (l1 ++ l2, 1).
Proof.
  intros Hl1 Hdoc. induction Hl1 as [|d ds Hd _ IH]; cbn [pymongo.remove_first app].
  - by rewrite Hdoc.
  - by rewrite Hd, IH.
Qed.

(** The count reported by an update or a delete is 0 or 1, and 0 leaves
    the documents as they were. *)
Lemma set_first_count flt upd docs :
  (pymongo.set_first flt upd docs).2 = 0 ∧ (pymongo.set_first flt upd docs).1 = docs
  ∨ (pymongo.set_first flt upd docs).2 = 1.
Proof.
  induction docs as [|d ds IH]; cbn [pymongo.set_first]; [by left|].
  destruct (matches flt d); [by right|].
  destruct (pymongo.set_first flt upd ds) as [ds' n]; cbn [fst snd] in *.
  destruct IH as [[-> ->] | ->]; [by left | by right].
Qed.

Lemma remove_first_count flt docs :
  (pymongo.remove_first flt docs).2 = 0 ∧ (pymongo.remove_first flt docs).1 = docs
  ∨ (pymongo.remove_first flt docs).2 = 1.
Proof.
  induction docs as [|d ds IH]; cbn [pymongo.remove_first]; [by left|].
  destruct (matches flt d); [by right|].
  destruct (pymongo.remove_first flt ds) as [ds' n]; cbn [fst snd] in *.
  destruct IH as [[-> ->] | ->]; [by left | by right].
Qed.

Lemma set_coll_same d cname docs :
  collections d !! cname = Some docs → set_coll d cname docs = d.
Proof.
  intros H. destruct d as [cs c]. unfold set_coll. cbn in *. f_equal.
  by apply insert_id.
Qed.

Lemma coll_set_coll d cname docs c :
  coll (set_coll d cname docs) c = if decide (cname = c) then docs else coll d c.
Proof.
  unfold coll, set_coll. cbn [collections]. rewrite lookup_insert.
  by case_decide.
Qed.

(** The state after a writing call whose operation left the documents as
    they were. *)
Lemma written_back_same d cname :
  match collections d !! cname with
  | Some _ => set_coll d cname (coll d cname)
  | None => d
  end = d.
Proof.
  unfold coll. destruct (collections d !! cname) eqn:E; [|reflexivity].
  by apply set_coll_same.
Qed.

(** ** What bson can encode *)

Lemma encodable_singleton k v :
  pymongo.encodable {[ k := v ]} ↔ pymongo.fits_int64 v.
Proof.
  unfold pymongo.encodable.
  apply (map_Forall_singleton (λ (_ : string) v', pymongo.fits_int64 v')).
Qed.

Lemma encodable_id oid : pymongo.encodable {[ "_id" := VObjectId oid ]}.
Proof. by apply encodable_singleton. Qed.

Lemma encodable_not_None_items m :
  pymongo.encodable (not_None_items m) ↔ pymongo.encodable m.
Proof.
  unfold pymongo.encodable, not_None_items. split.
  - intros H k v Hk. destruct (decide (v = VNone)) as [->|Hv]; [exact I|].
    apply (H k). by apply map_lookup_filter_Some.
  - intros H k v Hk. apply map_lookup_filter_Some in Hk as [Hk _]. by apply (H k).
Qed.

Lemma update_one_encodable flt upd docs :
  pymongo.encodable flt → pymongo.encodable upd →
  pymongo.update_one flt upd docs = Some (pymongo.set_first flt upd docs).
Proof. intros Hf Hu. unfold pymongo.update_one. by rewrite decide_True. Qed.

Lemma update_one_refused flt upd docs :
  ¬ (pymongo.encodable flt ∧ pymongo.encodable upd) →
  pymongo.update_one flt upd docs = None.
Proof. intros H. unfold pymongo.update_one. by rewrite decide_False. Qed.

Lemma delete_one_by_id oid docs :
  pymongo.delete_one {[ "_id" := VObjectId oid ]} docs
  = Some (pymongo.remove_first {[ "_id" := VObjectId oid ]} docs).
Proof.
  unfold pymongo.delete_one. rewrite decide_True; [reflexivity | apply encodable_id].
Qed.

(** ** The handlers, step by step *)

Local Abbreviation validated := (validated validate_email lax_int lax_bool).
Local Abbreviation update_project := (update_project validate_email lax_int lax_bool).

Lemma validated_inr fs p m st :
  model_validate fs p = inr m → validated fs p st = (Return m, st).
Proof.
  intros H. unfold validated, try_except, construct. by rewrite H.
Qed.

Lemma validated_inl fs p errs st :
  model_validate fs p = inl errs →
  validated fs p st = (Raise (HTTPException 422 (Errors errs)), st).
Proof.
  intros H. unfold validated, try_except, construct. by rewrite H.
Qed.

(** The second [try] of [update_project], for a connected store and a
    payload that validated. *)
Lemma update_project_connected project_id payload m d :
  model_validate ProjectUpdate payload = inr m →
  update_project project_id payload (Some d) =
    match bson.parse project_id with
    | None => (Raise (HTTPException 500 (StrOf (InvalidId project_id))), Some d)
    | Some oid =>
        if decide (pymongo.encodable m) then
          let r := pymongo.set_first {[ "_id" := VObjectId oid ]}
                     (not_None_items m) (coll d "project") in
          (if r.2 =? 0
           then Raise (HTTPException 500 (StrOf (HTTPException 404 (Text "Project not found"))))
           else Return (Obj {[ "status" := VStr "updated" ]}),
           Some (match collections d !! "project" with
                 | Some _ => set_coll d "project" r.1
                 | None => d
                 end))
        else
          (Raise (HTTPException 500
                    (StrOf (OverflowError "MongoDB can only handle up to 8-byte ints"))),
           Some d)
    end.
Proof.
  intros Hm. unfold update_project, mbind, M_bind.
  rewrite (validated_inr _ _ _ _ Hm).
  unfold try_except, db_is_None, ObjectId_of, col_update_one, on_collection,
    mbind, M_bind, model_dump.
  rewrite bool_decide_eq_false_2 by discriminate.
  destruct (bson.parse project_id) as [oid|]; [|reflexivity].
  unfold mret, M_ret. case_decide as He.
  - rewrite update_one_encodable
      by (by apply encodable_id || by apply encodable_not_None_items).
    destruct (pymongo.set_first _ _ _) as [docs n]. cbn [fst snd].
    destruct (n =? 0); reflexivity.
  - rewrite update_one_refused; [reflexivity|].
    intros [_ Hu]. by apply He, encodable_not_None_items.
Qed.

Lemma delete_project_connected project_id d :
  delete_project project_id (Some d) =
    match bson.parse project_id with
    | None => (Raise (HTTPException 500 (StrOf (InvalidId project_id))), Some d)
    | Some oid =>
        let r := pymongo.remove_first {[ "_id" := VObjectId oid ]} (coll d "project") in
        (if r.2 =? 0
         then Raise (HTTPException 500 (StrOf (HTTPException 404 (Text "Project not found"))))
         else Return (Obj {[ "status" := VStr "deleted" ]}),
         Some (match collections d !! "project" with
               | Some _ => set_coll d "project" r.1
               | None => d
               end))
    end.
Proof.
  unfold delete_project, try_except, db_is_None, ObjectId_of, col_delete_one,
    on_collection, mbind, M_bind.
  rewrite bool_decide_eq_false_2 by discriminate.
  destruct (bson.parse project_id) as [oid|]; [|reflexivity].
  unfold mret, M_ret. rewrite delete_one_by_id.
  destruct (pymongo.remove_first _ _) as [docs n]. cbn [fst snd].
  destruct (n =? 0); reflexivity.
Qed.

Lemma update_project_disconnected project_id payload m :
  model_validate ProjectUpdate payload = inr m →
  update_project project_id payload None =
    (Raise (HTTPException 500 (StrOf (Exception "Database not available"))), None).
Proof.
  intros Hm. unfold update_project, mbind, M_bind.
  rewrite (validated_inr _ _ _ _ Hm). reflexivity.
Qed.

Lemma delete_project_disconnected project_id :
  delete_project project_id None =
    (Raise (HTTPException 500 (StrOf (Exception "Database not available"))), None).
Proof. reflexivity. Qed.

(** ** Updating and deleting a project *)

Lemma absent_no_match oid docs :
  absent oid docs → Forall (λ d, matches {[ "_id" := VObjectId oid ]} d = false) docs.
Proof.
  unfold absent. intros H. eapply Forall_impl; [exact H|].
  intros doc Hd. cbn beta in *.
  rewrite matches_singleton. by apply bool_decide_eq_false.
Qed.

(** A well-formed identifier that no project carries: the 404 raised inside
    the [try] is caught by its own [except Exception] and leaves as a 500. *)
Lemma update_project_absent project_id oid payload m d :
  bson.parse project_id = Some oid →
  model_validate ProjectUpdate payload = inr m →
  pymongo.encodable m →
  absent oid (coll d "project") →
  update_project project_id payload (Some d) =
    (Raise (HTTPException 500 (StrOf (HTTPException 404 (Text "Project not found")))),
     Some d).
Proof.
  intros Hp Hm He Ha. rewrite (update_project_connected _ _ _ _ Hm), Hp.
  rewrite decide_True by done. cbv zeta.
  rewrite (set_first_no_match _ _ _ (absent_no_match _ _ Ha)). cbn [fst snd Z.eqb].
  by rewrite written_back_same.
Qed.

Lemma delete_project_absent project_id oid d :
  bson.parse project_id = Some oid →
  absent oid (coll d "project") →
  delete_project project_id (Some d) =
    (Raise (HTTPException 500 (StrOf (HTTPException 404 (Text "Project not found")))),
     Some d).
Proof.
  intros Hp Ha. rewrite delete_project_connected, Hp.
  rewrite (remove_first_no_match _ _ (absent_no_match _ _ Ha)). cbn [fst snd Z.eqb].
  by rewrite written_back_same.
Qed.

Lemma model_validate_empty_ProjectUpdate :
  ∃ m, model_validate ProjectUpdate ∅ = inr m.
Proof.
  apply model_validate_all_ok. intros f Hf.
  unfold pydantic.validate_field. rewrite lookup_empty.
  unfold ProjectUpdate in Hf.
  repeat (apply elem_of_cons in Hf as [->|Hf]); try (by eexists). inversion Hf.
Qed.

(** C1. At a well-formed identifier that matches no stored project (here
    24 zeros against an empty store) both PUT and DELETE answer 500, not
    the 404 that the handlers raise for this case. *)
Theorem missing_project_answers_500 :
  bson.parse "000000000000000000000000" = Some (replicate 12 0%N)
  ∧ status_of (update_project "000000000000000000000000" ∅ (Some (Database ∅ 0))).1
    = Some 500
  ∧ status_of (delete_project "000000000000000000000000" (Some (Database ∅ 0))).1
    = Some 500.
Proof.
  assert (bson.parse "000000000000000000000000" = Some (replicate 12 0%N)) as Hp
    by reflexivity.
  assert (absent (replicate 12 0%N) (coll (Database ∅ 0) "project")) as Ha
    by (unfold coll; cbn [collections]; rewrite lookup_empty; constructor).
  assert (model_validate ProjectUpdate ∅ = inr MoreEx.empty_update_model) as Hm
    by reflexivity.
  assert (pymongo.encodable MoreEx.empty_update_model) as He
    by (apply (bool_decide_unpack _); vm_compute; exact I).
  split; [exact Hp|]. split.
  - by rewrite (update_project_absent _ _ _ _ _ Hp Hm He Ha).
  - by rewrite (delete_project_absent _ _ _ Hp Ha).
Qed.

(** C5 (as amended). An identifier string that does not parse makes DELETE,
    and PUT with a payload that validates, answer a server error 500 whose
    detail is the text of the exception (the parse error, or the missing
    connection when the store is unavailable); the handler returns normally
    with that response and the store is left as it was. *)
Theorem unparsable_id_answers_500 (project_id : string) (st : option database) :
  bson.parse project_id = None →
  let e := match st with
           | Some _ => InvalidId project_id
           | None => Exception "Database not available"
           end in
  delete_project project_id st = (Raise (HTTPException 500 (StrOf e)), st)
  ∧ ∀ payload m,
      model_validate ProjectUpdate payload = inr m →
      update_project project_id payload st = (Raise (HTTPException 500 (StrOf e)), st).
Proof.
  intros Hp e. destruct st as [d|]; subst e.
  - split.
    + by rewrite delete_project_connected, Hp.
    + intros payload m Hm. by rewrite (update_project_connected _ _ _ _ Hm), Hp.
  - split; [reflexivity|].
    intros payload m Hm. by apply update_project_disconnected with m.
Qed.

(** ** Partial update *)

(** [$set] with the non-[None] items of the model: a key bound to a value
    other than [None] is overwritten, every other key keeps its value. *)
Lemma set_not_None_lookup (m doc : dict) k :
  (not_None_items m ∪ doc) !! k =
    match m !! k with
    | Some v => if decide (v = VNone) then doc !! k else Some v
    | None => doc !! k
    end.
Proof.
  unfold not_None_items. destruct (m !! k) as [v|] eqn:E.
  - case_decide as Hv.
    + rewrite lookup_union_r; [reflexivity|].
      apply map_lookup_filter_None. right. intros x Hx. cbn. congruence.
    + apply lookup_union_Some_l. apply map_lookup_filter_Some. by split.
  - rewrite lookup_union_r; [reflexivity|].
    apply map_lookup_filter_None. by left.
Qed.

(** An optional field whose default is [None] validates to something other
    than [None] exactly when the payload gives it. *)
Lemma validate_optional_given f p v :
  optional f = true → field_default f = Some VNone →
  validate_field f p = inr v →
  (v ≠ VNone ↔ given p (name f)).
Proof.
  unfold pydantic.validate_field, given. intros Ho Hd.
  rewrite Ho, Hd. destruct (p !! name f) as [w|] eqn:E.
  - destruct (decide (w = VNone)) as [->|Hw].
    + intros H; simplify_eq. split; [done|]. intros (v & Hv & Hne). congruence.
    + intros H. assert (v ≠ VNone) as Hv.
      { destruct w; try done;
          destruct (validate_ann (ann f) _) eqn:Ea; simplify_eq;
          by eapply validate_ann_not_None. }
      split; [|done]. intros _. eauto.
  - intros H; simplify_eq. split; [done|]. intros (v & Hv & _). discriminate.
Qed.

(** An input of the annotation's own type is kept as it is (the e-mail
    annotation apart, which normalises). *)
Lemma validate_field_native f p v v' :
  p !! name f = Some v → native (ann f) v →
  validate_field f p = inr v' → v' = v.
Proof.
  unfold pydantic.validate_field, native. intros Hp Hn. rewrite Hp.
  destruct (ann f) as [lo hi| |ge|], v; try done; cbn [pydantic.validate_ann].
  - destruct (check_str lo hi s) eqn:E; intros Hv; simplify_eq.
    by apply check_str_inr in E.
  - unfold check_int. intros Hv. repeat case_match; by simplify_eq.
  - intros Hv; by simplify_eq.
Qed.

Lemma ProjectUpdate_fields f :
  f ∈ ProjectUpdate → optional f = true ∧ field_default f = Some VNone.
Proof.
  unfold ProjectUpdate. intros Hf.
  repeat (apply elem_of_cons in Hf as [->|Hf]); try done. inversion Hf.
Qed.

Lemma ProjectUpdate_NoDup : NoDup (name <$> ProjectUpdate).
Proof. apply (bool_decide_unpack _). vm_compute. exact I. Qed.

(** The validated update binds a field to a value other than [None] exactly
    when the payload gives that field. *)
Lemma ProjectUpdate_model payload m k :
  model_validate ProjectUpdate payload = inr m →
  if decide (k ∈ name <$> ProjectUpdate ∧ given payload k)
  then ∃ v, m !! k = Some v ∧ v ≠ VNone
  else m !! k = None ∨ m !! k = Some VNone.
Proof.
  intros Hm. destruct (decide (k ∈ name <$> ProjectUpdate)) as [Hk|Hk].
  - apply list_elem_of_fmap in Hk as Hf. destruct Hf as (f & -> & Hf).
    destruct (model_validate_field_ok _ _ _ _ ProjectUpdate_NoDup Hm Hf)
      as (v & Hv & Hl).
    destruct (ProjectUpdate_fields f Hf) as [Ho Hd].
    pose proof (validate_optional_given f payload v Ho Hd Hv) as Hiff.
    case_decide as Hg.
    + exists v. split; [done|]. apply Hiff, Hg.
    + right. rewrite Hl. f_equal. destruct (decide (v = VNone)) as [|Hne]; [done|].
      destruct Hg. split; [done|]. by apply Hiff.
  - rewrite decide_False by tauto. left.
    by eapply model_validate_lookup_None.
Qed.

(** The refusal of the encoder, as the handler answers it. *)
Lemma update_project_refused project_id oid payload m d :
  bson.parse project_id = Some oid →
  model_validate ProjectUpdate payload = inr m →
  ¬ pymongo.encodable m →
  update_project project_id payload (Some d) =
    (Raise (HTTPException 500
              (StrOf (OverflowError "MongoDB can only handle up to 8-byte ints"))),
     Some d).
Proof.
  intros Hp Hm He. rewrite (update_project_connected _ _ _ _ Hm), Hp.
  by rewrite decide_False.
Qed.

(** C2 (as amended). For an existing project and an update payload that
    validates and whose integer ([order]) fits in the 8 bytes that bson can
    encode, the update answers "updated" and changes that one document
    only: each field of ProjectUpdate that the payload gives with a value
    other than null is overwritten with its validated value (which is the
    given value itself when it already has the field's type), and every
    other key of the stored document, as every other document, keeps its
    previous value. When the validated [order] is beyond 8 bytes, the
    encoder refuses the update: the answer is 500 and the store is left as
    it was. *)
Theorem update_overwrites_given_fields
    (project_id : string) (oid : ObjectId) (payload m : dict)
    (d : database) (l1 l2 : list dict) (doc : dict) :
  bson.parse project_id = Some oid →
  model_validate ProjectUpdate payload = inr m →
  coll d "project" = l1 ++ doc :: l2 →
  doc !! "_id" = Some (VObjectId oid) →
  absent oid l1 →
  (pymongo.encodable m →
   ∃ doc',
     update_project project_id payload (Some d) =
       (Return (Obj {[ "status" := VStr "updated" ]}),
        Some (set_coll d "project" (l1 ++ doc' :: l2)))
     ∧ (∀ k, doc' !! k =
               if decide (k ∈ name <$> ProjectUpdate ∧ given payload k)
               then m !! k else doc !! k)
     ∧ (∀ k, k ∈ name <$> ProjectUpdate → given payload k →
             ∃ v, m !! k = Some v ∧ v ≠ VNone)
     ∧ (∀ f v, f ∈ ProjectUpdate → payload !! name f = Some v → native (ann f) v →
               m !! name f = Some v))
  ∧ (¬ pymongo.encodable m →
     update_project project_id payload (Some d) =
       (Raise (HTTPException 500
                 (StrOf (OverflowError "MongoDB can only handle up to 8-byte ints"))),
        Some d)).
Proof.
  intros Hp Hm Hc Hid Ha. split; [|by apply update_project_refused with oid].
  intros He.
  exists (not_None_items m ∪ doc). split; [|split; [|split]].
  - rewrite (update_project_connected _ _ _ _ Hm), Hp, Hc.
    rewrite decide_True by done. cbv zeta.
    rewrite (set_first_match _ _ _ _ _ (absent_no_match _ _ Ha)).
    + cbn [fst snd Z.eqb]. unfold coll in Hc.
      destruct (collections d !! "project"); [reflexivity|].
      cbn in Hc. by destruct l1.
    + rewrite matches_singleton. by apply bool_decide_eq_true.
  - intros k. rewrite set_not_None_lookup.
    pose proof (ProjectUpdate_model payload m k Hm) as H.
    case_decide.
    + destruct H as (v & -> & Hv). by rewrite decide_False.
    + destruct H as [->| ->]; [reflexivity|]. by rewrite decide_True.
  - intros k Hk Hg. pose proof (ProjectUpdate_model payload m k Hm) as H.
    by rewrite decide_True in H.
  - intros f v Hf Hv Hn.
    destruct (model_validate_field_ok _ _ _ _ ProjectUpdate_NoDup Hm Hf)
      as (v' & Hv' & Hl).
    rewrite Hl. f_equal. by eapply validate_field_native.
Qed.

(** ** Listing projects *)

Lemma stringify_id_idemp doc : stringify_id (stringify_id doc) = stringify_id doc.
Proof.
  unfold stringify_id at 1. unfold dict_get at 1.
  unfold stringify_id. rewrite lookup_insert_eq. cbn [default py_str].
  apply insert_insert_eq.
Qed.

Lemma stringify_id_lookup_ne doc k :
  k ≠ "_id" → stringify_id doc !! k = doc !! k.
Proof. intros Hk. unfold stringify_id. by rewrite lookup_insert_ne. Qed.

Lemma find_empty docs : pymongo.find ∅ docs = docs.
Proof.
  unfold pymongo.find. induction docs as [|d ds IH]; [reflexivity|].
  cbn [List.filter]. by rewrite matches_empty, IH.
Qed.

Lemma find_singleton k v docs :
  pymongo.find {[ k := v ]} docs = filter (λ doc : dict, doc !! k = Some v) docs.
Proof.
  unfold pymongo.find. induction docs as [|d ds IH]; [reflexivity|].
  cbn [List.filter]. rewrite matches_singleton, IH.
  case_bool_decide.
  - by rewrite filter_cons_True.
  - by rewrite filter_cons_False.
Qed.

(** [get_documents] on a connected store, followed by the handler's own
    conversion of the identifiers. *)
Lemma get_documents_connected cname flt limit d :
  get_documents cname flt limit (Some d) =
    (Return (stringify_id <$> (match limit with
                               | Some n => take n (pymongo.find flt (coll d cname))
                               | None => pymongo.find flt (coll d cname)
                               end)), Some d).
Proof. reflexivity. Qed.

Lemma fmap_stringify_id_idemp (docs : list dict) :
  stringify_id <$> (stringify_id <$> docs) = stringify_id <$> docs.
Proof.
  rewrite <- list_fmap_compose. apply list_fmap_ext.
  intros i doc _. apply stringify_id_idemp.
Qed.

Lemma list_projects_connected tag d :
  list_projects tag (Some d) =
    (Return (Arr (stringify_id <$>
       pymongo.find (if truthy_opt_str tag then {[ "tag" := opt_str_value tag ]} else ∅)
         (coll d "project"))), Some d).
Proof.
  unfold list_projects, try_except, mbind, M_bind.
  rewrite get_documents_connected. unfold mret, M_ret.
  by rewrite fmap_stringify_id_idemp.
Qed.

(** C6. With a non-empty tag the listing returns exactly the stored
    projects whose [tag] equals it, in stored order and with their
    identifiers as strings: every returned document has that tag and every
    stored document with that tag is returned. With no tag it returns all
    stored projects. *)
Theorem list_projects_filters_by_tag (d : database) (t : string) :
  t ≠ EmptyString →
  ∃ items,
    list_projects (Some t) (Some d) = (Return (Arr items), Some d)
    ∧ items = stringify_id <$>
                filter (λ doc : dict, doc !! "tag" = Some (VStr t)) (coll d "project")
    ∧ (∀ it, it ∈ items → it !! "tag" = Some (VStr t))
    ∧ (∀ doc, doc ∈ coll d "project" → doc !! "tag" = Some (VStr t) →
              stringify_id doc ∈ items)
    ∧ list_projects None (Some d) =
        (Return (Arr (stringify_id <$> coll d "project")), Some d).
Proof.
  intros Ht. eexists. split; [|split; [reflexivity|split; [|split]]].
  - rewrite list_projects_connected.
    destruct t as [|c t']; [done|]. cbn [truthy_opt_str opt_str_value].
    by rewrite find_singleton.
  - intros it Hit. apply list_elem_of_fmap in Hit as (doc & -> & Hdoc).
    apply list_elem_of_filter in Hdoc as [Htag _].
    by rewrite stringify_id_lookup_ne.
  - intros doc Hdoc Htag. apply list_elem_of_fmap. exists doc. split; [done|].
    by apply list_elem_of_filter.
  - rewrite list_projects_connected. cbn [truthy_opt_str]. by rewrite find_empty.
Qed.

(** C10. The empty string as tag is the same request as no tag: the two
    calls are equal on every state, and on a connected store the answer is
    every stored project, not only those whose tag is the empty string. *)
Theorem list_projects_empty_tag_is_no_tag :
  (∀ st, list_projects (Some EmptyString) st = list_projects None st)
  ∧ (∀ d, list_projects (Some EmptyString) (Some d) =
            (Return (Arr (stringify_id <$> coll d "project")), Some d)).
Proof.
  split; [reflexivity|].
  intros d. rewrite list_projects_connected. cbn [truthy_opt_str].
  by rewrite find_empty.
Qed.

(** ** Replacing the settings *)

Local Abbreviation upsert_settings := (upsert_settings validate_email lax_int lax_bool).
Local Abbreviation submit_contact := (submit_contact validate_email lax_int lax_bool).

Lemma SiteSettings_NoDup : NoDup (name <$> SiteSettings).
Proof. apply (bool_decide_unpack _). vm_compute. exact I. Qed.

Lemma SiteSettings_defaults f : f ∈ SiteSettings → is_Some (field_default f).
Proof.
  unfold SiteSettings. intros Hf.
  repeat (apply elem_of_cons in Hf as [->|Hf]); try (by eexists). inversion Hf.
Qed.

(** The upsert on a stored document: the update goes through when bson
    can encode the filter and the model, and is refused otherwise. *)
Lemma upsert_settings_on_existing payload m d existing rest _id :
  model_validate SiteSettings payload = inr m →
  coll d "sitesettings" = existing :: rest →
  existing !! "_id" = Some _id →
  upsert_settings payload (Some d) =
    if decide (pymongo.fits_int64 _id ∧ pymongo.encodable m)
    then (Return (Obj {[ "status" := VStr "updated" ]}),
          Some (set_coll d "sitesettings" ((m ∪ existing) :: rest)))
    else (Raise (HTTPException 500
                   (StrOf (OverflowError "MongoDB can only handle up to 8-byte ints"))),
          Some d).
Proof.
  intros Hm Hc Hid.
  unfold upsert_settings, mbind, M_bind.
  rewrite (validated_inr _ _ _ _ Hm).
  unfold try_except, db_is_None, col_find_one, mbind, M_bind.
  rewrite bool_decide_eq_false_2 by discriminate.
  rewrite Hc. unfold pymongo.find_one. rewrite find_empty. cbn [head truthy_opt_dict].
  rewrite bool_decide_eq_false_2
    by (intros ->; rewrite lookup_empty in Hid; discriminate).
  cbn [negb default from_option id]. unfold subscript. rewrite Hid.
  unfold mret, M_ret, col_update_one, on_collection, model_dump.
  rewrite Hc. case_decide as He.
  - destruct He as [Hi He].
    rewrite update_one_encodable by (by apply encodable_singleton || done).
    cbn [pymongo.set_first].
    rewrite matches_singleton, bool_decide_eq_true_2 by assumption.
    unfold coll in Hc. destruct (collections d !! "sitesettings"); [reflexivity|].
    discriminate Hc.
  - rewrite update_one_refused; [reflexivity|].
    intros [Hi Hu]. apply He. split; [by apply (encodable_singleton "_id") | done].
Qed.

(** C9 (as amended). With a stored settings document and a payload that
    validates and whose integers ([stat_projects], [stat_clients],
    [stat_awards]) fit in the 8 bytes that bson can encode, the upsert
    answers "updated" and overwrites every field of SiteSettings in that
    document with the value of the validated model; a field that the
    payload omits gets its schema default (for [hero_title] the default
    title), whatever the document held before. When one of the validated
    integers is beyond 8 bytes, the encoder refuses the update: the answer
    is 500 and the store is left as it was. *)
Theorem upsert_overwrites_every_field
    (payload m : dict) (d : database) (existing : dict) (rest : list dict)
    (_id : value) :
  model_validate SiteSettings payload = inr m →
  coll d "sitesettings" = existing :: rest →
  existing !! "_id" = Some _id →
  pymongo.fits_int64 _id →
  (pymongo.encodable m →
   upsert_settings payload (Some d) =
     (Return (Obj {[ "status" := VStr "updated" ]}),
      Some (set_coll d "sitesettings" ((m ∪ existing) :: rest)))
   ∧ (∀ f, f ∈ SiteSettings →
           is_Some (m !! name f)
           ∧ (m ∪ existing) !! name f = m !! name f
           ∧ (payload !! name f = None → m !! name f = field_default f))
   ∧ (payload !! "hero_title" = None →
      (m ∪ existing) !! "hero_title"
      = Some (VStr "INNOVATE. BUILD. TRANSFORM WITH AXIOM.")))
  ∧ (¬ pymongo.encodable m →
     upsert_settings payload (Some d) =
       (Raise (HTTPException 500
                 (StrOf (OverflowError "MongoDB can only handle up to 8-byte ints"))),
        Some d)).
Proof.
  intros Hm Hc Hid Hfit.
  pose proof (upsert_settings_on_existing _ _ _ _ _ _ Hm Hc Hid) as Hrun.
  split; [|intros He; rewrite Hrun; by rewrite decide_False by tauto].
  intros He.
  assert (∀ f, f ∈ SiteSettings →
            is_Some (m !! name f)
            ∧ (m ∪ existing) !! name f = m !! name f
            ∧ (payload !! name f = None → m !! name f = field_default f)) as Hfields.
  { intros f Hf.
    destruct (model_validate_field_ok _ _ _ _ SiteSettings_NoDup Hm Hf)
      as (v & Hv & Hl).
    split; [by eexists|]. split.
    - rewrite Hl. by apply lookup_union_Some_l.
    - intros Hnone. rewrite Hl. unfold pydantic.validate_field in Hv.
      rewrite Hnone in Hv. destruct (SiteSettings_defaults f Hf) as [dv Hd].
      rewrite Hd in Hv |- *. by simplify_eq. }
  split; [|split; [exact Hfields|]].
  - rewrite Hrun. by rewrite decide_True.
  - intros Hnone.
    destruct (Hfields (Field "hero_title" (Str None None) false
                 (Some (VStr "INNOVATE. BUILD. TRANSFORM WITH AXIOM."))))
      as (_ & Hu & Hdflt); [left|].
    cbn [name field_default] in *. rewrite Hu. by apply Hdflt.
Qed.

(** ** Contact submissions *)

Lemma length_hexlify bs : String.length (bson.hexlify bs) = (2 * length bs)%nat.
Proof. induction bs as [|b bs IH]; cbn [bson.hexlify String.length length]; lia. Qed.

Lemma length_be_bytes k n : length (bson.be_bytes k n) = k.
Proof.
  revert n. induction k as [|k IH]; intros n; cbn [bson.be_bytes]; [reflexivity|].
  rewrite length_app, IH. cbn. lia.
Qed.

(** A generated identifier prints as 24 characters. *)
Lemma length_to_str_fresh c : String.length (bson.to_str (bson.fresh c)) = 24%nat.
Proof.
  unfold bson.to_str, bson.fresh. by rewrite length_hexlify, length_be_bytes.
Qed.

Lemma to_str_fresh_nonempty c : bson.to_str (bson.fresh c) ≠ EmptyString.
Proof.
  intros H. pose proof (length_to_str_fresh c) as Hl. rewrite H in Hl. discriminate.
Qed.

Lemma coll_insert_one cname doc d c :
  coll (pymongo.insert_one cname doc d).2 c =
    if decide (cname = c)
    then coll d cname ++ [<["_id" := VObjectId (bson.fresh (counter d))]> doc]
    else coll d c.
Proof.
  unfold pymongo.insert_one. cbn [snd]. unfold coll at 1. cbn [collections].
  rewrite lookup_insert. by case_decide.
Qed.

Lemma contact_violation_rejected payload k :
  contact_violation payload k → rejected_at ContactMessage payload k.
Proof.
  intros Hv. apply rejected_at_field. destruct Hv as [k Hk Hnone|s Hs Hl|s Hs Hl|s Hs Hl|s Hs Hl].
  - repeat (apply elem_of_cons in Hk as [->|Hk]); [| | |inversion Hk].
    + eexists _, missing. split; [left|].
      unfold pydantic.validate_field. cbn [name field_default]. by rewrite Hnone.
    + eexists _, missing. split; [right; left|].
      unfold pydantic.validate_field. cbn [name field_default]. by rewrite Hnone.
    + eexists _, missing. split; [right; right; left|].
      unfold pydantic.validate_field. cbn [name field_default]. by rewrite Hnone.
  - pose proof (validate_str_field "name" 2 120 false None payload s Hs) as V.
    assert (∃ t, validate_field (Field "name" (Str (Some 2) (Some 120)) false None)
                   payload = inl (Error "name" t)) as [t Ht].
    { rewrite V. repeat case_decide; eauto; lia. }
    eexists _, t. split; [left | exact Ht].
  - pose proof (validate_str_field "message" 10 5000 false None payload s Hs) as V.
    assert (∃ t, validate_field (Field "message" (Str (Some 10) (Some 5000)) false None)
                   payload = inl (Error "message" t)) as [t Ht].
    { rewrite V. repeat case_decide; eauto; lia. }
    eexists _, t. split; [right; right; left | exact Ht].
  - eexists _, _. split; [right; right; right; left|].
    unfold pydantic.validate_field. cbn [name ann optional field_default].
    rewrite Hs. cbn [pydantic.validate_ann]. rewrite check_str_max.
    by rewrite decide_True.
  - eexists _, _. split; [right; right; right; right; left|].
    unfold pydantic.validate_field. cbn [name ann optional field_default].
    rewrite Hs. cbn [pydantic.validate_ann]. rewrite check_str_max.
    by rewrite decide_True.
Qed.

(** C4. A contact payload that validates, sent to a connected store, is
    answered with status "ok" and a non-empty id, and exactly one document
    is added: the validated message under that id at the end of the
    [contactmessage] collection, every other collection being untouched. A
    payload that misses [name], [email] or [message], or breaks a length
    bound, is answered 422 with the list of per-field errors, among them
    one at the offending field, and the state is left as it was, whatever
    it is: no store call is made. *)
Theorem submit_contact_persists_or_rejects (payload : dict) (st : option database) :
  (∀ data d,
      model_validate ContactMessage payload = inr data → st = Some d →
      ∃ d',
        submit_contact payload st =
          (Return (Obj {[ "status" := VStr "ok";
                          "id" := VStr (bson.to_str (bson.fresh (counter d))) ]}),
           Some d')
        ∧ bson.to_str (bson.fresh (counter d)) ≠ EmptyString
        ∧ coll d' "contactmessage" =
            coll d "contactmessage"
              ++ [<["_id" := VObjectId (bson.fresh (counter d))]> data]
        ∧ ∀ c, c ≠ "contactmessage" → coll d' c = coll d c)
  ∧ (∀ k, contact_violation payload k →
          ∃ errs t,
            submit_contact payload st = (Raise (HTTPException 422 (Errors errs)), st)
            ∧ Error k t ∈ errs).
Proof.
  split.
  - intros data d Hm ->. exists (pymongo.insert_one "contactmessage" data d).2.
    split; [|split; [apply to_str_fresh_nonempty|split]].
    + unfold submit_contact, mbind, M_bind. rewrite (validated_inr _ _ _ _ Hm).
      reflexivity.
    + rewrite coll_insert_one. by rewrite decide_True.
    + intros c Hc. rewrite coll_insert_one. by rewrite decide_False.
  - intros k Hv. apply contact_violation_rejected in Hv as (errs & t & Herrs & Hin).
    exists errs, t. split; [|exact Hin].
    unfold submit_contact, mbind, M_bind. by rewrite (validated_inl _ _ _ _ Herrs).
Qed.

(** ** Reading the settings *)

Local Abbreviation get_settings := (get_settings validate_email lax_int lax_bool).
Local Abbreviation get_settings_times :=
  (get_settings_times validate_email lax_int lax_bool).

(** [SiteSettings()] always succeeds, and the model has no ["_id"]. *)
Lemma SiteSettings_default_model :
  ∃ dflt, model_validate SiteSettings ∅ = inr dflt ∧ dflt !! "_id" = None.
Proof.
  destruct (model_validate_all_ok SiteSettings ∅) as [dflt Hd].
  { intros f Hf. unfold pydantic.validate_field. rewrite lookup_empty.
    destruct (SiteSettings_defaults f Hf) as [v ->]. by eexists. }
  exists dflt. split; [exact Hd|].
  eapply model_validate_lookup_None; [exact Hd|].
  apply (bool_decide_unpack _). vm_compute. exact I.
Qed.

Lemma get_settings_disconnected :
  get_settings None = (Raise (HTTPException 500 (StrOf StorageUnavailable)), None).
Proof. reflexivity. Qed.

(** A stored document is returned, with its identifier as a string, and
    nothing is written. *)
Lemma get_settings_existing d doc rest :
  coll d "sitesettings" = doc :: rest →
  get_settings (Some d) = (Return (Obj (stringify_id doc)), Some d).
Proof.
  intros Hc. unfold get_settings, try_except, mbind, M_bind.
  rewrite get_documents_connected, find_empty, Hc.
  cbn [take fmap list_fmap]. unfold mret, M_ret.
  by rewrite stringify_id_idemp.
Qed.

(** On an empty collection the defaults are stored and returned as they
    are, without identifier. *)
Lemma get_settings_first d dflt :
  coll d "sitesettings" = [] →
  model_validate SiteSettings ∅ = inr dflt →
  get_settings (Some d) =
    (Return (Obj dflt), Some (pymongo.insert_one "sitesettings" dflt d).2).
Proof.
  intros Hc Hd. unfold get_settings, try_except, mbind, M_bind.
  rewrite get_documents_connected, find_empty, Hc.
  cbn [take fmap list_fmap]. unfold construct. rewrite Hd. reflexivity.
Qed.

Lemma stringify_id_inserted oid (doc : dict) :
  stringify_id (<["_id" := VObjectId oid]> doc) = <["_id" := VStr (bson.to_str oid)]> doc.
Proof.
  unfold stringify_id, dict_get. rewrite lookup_insert_eq. cbn [default from_option id py_str].
  apply insert_insert_eq.
Qed.

(** One call never takes the collection beyond one document. *)
Lemma get_settings_count st :
  (settings_count st ≤ 1)%nat → (settings_count (get_settings st).2 ≤ 1)%nat.
Proof.
  destruct st as [d|]; [|done]. cbn [settings_count].
  destruct (coll d "sitesettings") as [|doc rest] eqn:Hc; intros Hle.
  - destruct SiteSettings_default_model as (dflt & Hd & _).
    rewrite (get_settings_first d dflt Hc Hd). cbn [snd settings_count].
    rewrite coll_insert_one, decide_True, Hc by done. cbn. lia.
  - rewrite (get_settings_existing d doc rest Hc). cbn [snd settings_count].
    by rewrite Hc.
Qed.

(** C3 (as amended). A second call right after a first one never writes.
    When a settings document exists before the first call, the first call
    does not write either and both calls return that document, identically;
    on an unavailable store both calls fail alike with a 500. When the
    collection is empty, the first call stores the defaults and returns them
    without an ["_id"], and the second call returns the same fields together
    with the ["_id"] of the document just created. However many times the
    endpoint is called, a collection that holds at most one document never
    comes to hold more than one. *)
Theorem get_settings_repeated (st : option database) :
  (get_settings (get_settings st).2).2 = (get_settings st).2
  ∧ (∀ d doc rest,
        st = Some d → coll d "sitesettings" = doc :: rest →
        get_settings st = (Return (Obj (stringify_id doc)), st)
        ∧ (get_settings (get_settings st).2).1 = (get_settings st).1)
  ∧ (st = None →
     status_of (get_settings st).1 = Some 500
     ∧ (get_settings (get_settings st).2).1 = (get_settings st).1)
  ∧ (∀ d,
        st = Some d → coll d "sitesettings" = [] →
        ∃ dflt,
          model_validate SiteSettings ∅ = inr dflt
          ∧ dflt !! "_id" = None
          ∧ (get_settings st).1 = Return (Obj dflt)
          ∧ (get_settings (get_settings st).2).1
            = Return (Obj (<["_id" := VStr (bson.to_str (bson.fresh (counter d)))]> dflt))
          ∧ settings_count (get_settings st).2 = 1%nat)
  ∧ (∀ n, (settings_count st ≤ 1)%nat → (settings_count (get_settings_times n st) ≤ 1)%nat).
Proof.
  assert (∀ d dflt, coll d "sitesettings" = [] →
            coll (pymongo.insert_one "sitesettings" dflt d).2 "sitesettings"
            = [<["_id" := VObjectId (bson.fresh (counter d))]> dflt]) as Hins.
  { intros d dflt Hc. by rewrite coll_insert_one, decide_True, Hc. }
  split; [|split; [|split; [|split]]].
  - destruct st as [d|]; [|reflexivity].
    destruct (coll d "sitesettings") as [|doc rest] eqn:Hc.
    + destruct SiteSettings_default_model as (dflt & Hd & _).
      rewrite (get_settings_first d dflt Hc Hd). cbn [snd].
      by rewrite (get_settings_existing _ _ [] (Hins d dflt Hc)).
    + rewrite (get_settings_existing d doc rest Hc). cbn [snd].
      by rewrite (get_settings_existing d doc rest Hc).
  - intros d doc rest -> Hc. rewrite (get_settings_existing d doc rest Hc).
    split; [reflexivity|]. cbn [fst snd].
    by rewrite (get_settings_existing d doc rest Hc).
  - intros ->. split; reflexivity.
  - intros d -> Hc. destruct SiteSettings_default_model as (dflt & Hd & Hid).
    exists dflt. split; [exact Hd|]. split; [exact Hid|].
    rewrite (get_settings_first d dflt Hc Hd). cbn [fst snd].
    split; [reflexivity|]. split.
    + rewrite (get_settings_existing _ _ [] (Hins d dflt Hc)). cbn [fst].
      by rewrite stringify_id_inserted.
    + cbn [settings_count]. by rewrite (Hins d dflt Hc).
  - intros n Hle. induction n as [|n IH]; [exact Hle|].
    change (get_settings_times (S n) st) with (get_settings (get_settings_times n st)).2.
    by apply get_settings_count.
Qed.

(** * Further properties of the handlers *)

Local Abbreviation create_project := (create_project validate_email lax_int lax_bool).

(** ** Status codes *)

Lemma status_try_server_error {A} (body : M A) st :
  answers [200; 500] (try_except body is_Exception server_error st).1.
Proof.
  unfold answers, try_except. destruct (body st) as [[a|e] st']; cbn.
  - exists 200. split; [reflexivity | set_solver].
  - exists 500. split; [reflexivity | set_solver].
Qed.

Lemma validated_cases fs p st :
  (∃ m, model_validate fs p = inr m ∧ validated fs p st = (Return m, st))
  ∨ (∃ errs, model_validate fs p = inl errs
             ∧ validated fs p st = (Raise (HTTPException 422 (Errors errs)), st)).
Proof.
  destruct (model_validate fs p) as [errs|m] eqn:E; [right|left]; eexists;
    (split; [reflexivity|]); first [by apply validated_inl | by apply validated_inr].
Qed.

Lemma answers_weaken {A} (codes codes' : list Z) (r : outcome A) :
  codes ⊆ codes' → answers codes r → answers codes' r.
Proof. intros Hsub (s & Hs & Hin). exists s. split; [done | by apply Hsub]. Qed.

Lemma status_after_validation fs p (k : dict → M body) st :
  (∀ m st', answers [200; 500] (k m st').1) →
  answers [200; 422; 500] ((validated fs p ≫= k) st).1.
Proof.
  intros Hk. unfold mbind, M_bind.
  destruct (validated_cases fs p st) as [(m & _ & ->)|(errs & _ & ->)].
  - eapply answers_weaken; [|apply Hk].
    intros x Hx. repeat (apply elem_of_cons in Hx as [->|Hx]);
      [left | right; right; left | inversion Hx].
  - exists 422. split; [reflexivity | set_solver].
Qed.

(** X1. Every handler ends in an HTTP response, whatever its input and the
    state of the store: 200, 422 or 500 for the handlers that validate a
    payload, 200 or 500 for the others. In particular no handler ever
    answers 404, and none lets an exception escape. *)
Theorem handlers_answer_200_422_500
    (project_id : string) (payload : dict) (tag : option string)
    (st : option database) :
  answers [200; 422; 500] (submit_contact payload st).1
  ∧ answers [200; 500] (get_settings st).1
  ∧ answers [200; 422; 500] (upsert_settings payload st).1
  ∧ answers [200; 500] (list_projects tag st).1
  ∧ answers [200; 422; 500] (create_project payload st).1
  ∧ answers [200; 422; 500] (update_project project_id payload st).1
  ∧ answers [200; 500] (delete_project project_id st).1.
Proof.
  repeat split;
    try (apply status_after_validation; intros; apply status_try_server_error);
    apply status_try_server_error.
Qed.

(** ** Validation comes first *)

(** X2. In the three writing handlers of the admin API a payload that fails
    validation is answered 422 with exactly the validator's error list, and
    the state is untouched, whether or not a connection exists and, for the
    update, whether or not the identifier parses. *)
Theorem invalid_payload_answers_422_first
    (project_id : string) (payload : dict) (st : option database) :
  (∀ errs, model_validate SiteSettings payload = inl errs →
           upsert_settings payload st = (Raise (HTTPException 422 (Errors errs)), st))
  ∧ (∀ errs, model_validate Project payload = inl errs →
             create_project payload st = (Raise (HTTPException 422 (Errors errs)), st))
  ∧ (∀ errs, model_validate ProjectUpdate payload = inl errs →
             update_project project_id payload st
             = (Raise (HTTPException 422 (Errors errs)), st)).
Proof.
  repeat split; intros errs He.
  - unfold upsert_settings, mbind, M_bind. by rewrite (validated_inl _ _ _ _ He).
  - unfold create_project, mbind, M_bind. by rewrite (validated_inl _ _ _ _ He).
  - unfold update_project, mbind, M_bind. by rewrite (validated_inl _ _ _ _ He).
Qed.

(** X3. Without a connection, the handlers that use the handle directly
    answer 500 with "Database not available" for every payload that
    validates and every identifier, parsable or not: the connection is
    checked before the identifier is parsed. *)
Theorem store_unavailable_answers_500 (project_id : string) (payload : dict) :
  (∀ m, model_validate SiteSettings payload = inr m →
        upsert_settings payload None
        = (Raise (HTTPException 500 (StrOf (Exception "Database not available"))), None))
  ∧ (∀ m, model_validate ProjectUpdate payload = inr m →
          update_project project_id payload None
          = (Raise (HTTPException 500 (StrOf (Exception "Database not available"))), None))
  ∧ delete_project project_id None
    = (Raise (HTTPException 500 (StrOf (Exception "Database not available"))), None).
Proof.
  repeat split.
  - intros m Hm. unfold upsert_settings, mbind, M_bind.
    by rewrite (validated_inr _ _ _ _ Hm).
  - intros m Hm. by apply update_project_disconnected with m.
Qed.

(** ** Deleting *)

Lemma coll_nonempty_Some d cname doc docs :
  coll d cname = doc :: docs → is_Some (collections d !! cname).
Proof.
  unfold coll. destruct (collections d !! cname); [by eexists | discriminate].
Qed.

Lemma absent_app oid l1 l2 : absent oid (l1 ++ l2) ↔ absent oid l1 ∧ absent oid l2.
Proof. unfold absent. apply Forall_app. Qed.

Lemma delete_project_existing project_id oid d l1 doc l2 :
  bson.parse project_id = Some oid →
  coll d "project" = l1 ++ doc :: l2 →
  doc !! "_id" = Some (VObjectId oid) →
  absent oid l1 →
  delete_project project_id (Some d) =
    (Return (Obj {[ "status" := VStr "deleted" ]}),
     Some (set_coll d "project" (l1 ++ l2))).
Proof.
  intros Hp Hc Hid Ha. rewrite delete_project_connected, Hp, Hc.
  rewrite (remove_first_match _ _ _ _ (absent_no_match _ _ Ha)).
  - cbn [fst snd Z.eqb].
    destruct (coll_nonempty_Some d "project" (hd doc l1) (tl l1 ++ (if l1 is [] then l2 else doc :: l2)))
      as [x ->]; [|reflexivity].
    rewrite Hc. by destruct l1.
  - rewrite matches_singleton. by apply bool_decide_eq_true.
Qed.

(** X4. Deleting an existing project answers "deleted" and removes that one
    document and nothing else: the documents before and after it stay, in
    order, and every other collection is untouched. Once the identifier is
    no longer stored, deleting it again answers 500 and changes nothing. *)
Theorem delete_removes_exactly_one
    (project_id : string) (oid : ObjectId) (d : database)
    (l1 l2 : list dict) (doc : dict) :
  bson.parse project_id = Some oid →
  coll d "project" = l1 ++ doc :: l2 →
  doc !! "_id" = Some (VObjectId oid) →
  absent oid l1 → absent oid l2 →
  ∃ d',
    delete_project project_id (Some d)
    = (Return (Obj {[ "status" := VStr "deleted" ]}), Some d')
    ∧ coll d' "project" = l1 ++ l2
    ∧ (∀ c, c ≠ "project" → coll d' c = coll d c)
    ∧ delete_project project_id (Some d')
      = (Raise (HTTPException 500 (StrOf (HTTPException 404 (Text "Project not found")))),
         Some d').
Proof.
  intros Hp Hc Hid Ha1 Ha2. exists (set_coll d "project" (l1 ++ l2)).
  assert (coll (set_coll d "project" (l1 ++ l2)) "project" = l1 ++ l2) as Hc'
    by (by rewrite coll_set_coll, decide_True).
  split; [by eapply delete_project_existing|]. split; [exact Hc'|]. split.
  - intros c Hne. by rewrite coll_set_coll, decide_False.
  - apply delete_project_absent with oid; [exact Hp|].
    rewrite Hc'. by apply absent_app.
Qed.

(** ** Updating *)

Lemma not_None_items_no_id payload m :
  model_validate ProjectUpdate payload = inr m → not_None_items m !! "_id" = None.
Proof.
  intros Hm. unfold not_None_items. apply map_lookup_filter_None. left.
  eapply model_validate_lookup_None; [exact Hm|].
  apply (bool_decide_unpack _). vm_compute. exact I.
Qed.

Lemma update_project_existing project_id oid payload m d l1 doc l2 :
  bson.parse project_id = Some oid →
  model_validate ProjectUpdate payload = inr m →
  pymongo.encodable m →
  coll d "project" = l1 ++ doc :: l2 →
  doc !! "_id" = Some (VObjectId oid) →
  absent oid l1 →
  update_project project_id payload (Some d) =
    (Return (Obj {[ "status" := VStr "updated" ]}),
     Some (set_coll d "project" (l1 ++ (not_None_items m ∪ doc) :: l2))).
Proof.
  intros Hp Hm He Hc Hid Ha.
  rewrite (update_project_connected _ _ _ _ Hm), Hp, Hc.
  rewrite decide_True by done. cbv zeta.
  rewrite (set_first_match _ _ _ _ _ (absent_no_match _ _ Ha)).
  - cbn [fst snd Z.eqb]. unfold coll in Hc.
    destruct (collections d !! "project"); [reflexivity|].
    cbn in Hc. by destruct l1.
  - rewrite matches_singleton. by apply bool_decide_eq_true.
Qed.

Lemma set_coll_set_coll d cname docs docs' :
  set_coll (set_coll d cname docs) cname docs' = set_coll d cname docs'.
Proof. unfold set_coll. cbn [collections counter]. by rewrite insert_insert_eq. Qed.

(** X5. The update is idempotent: sending the same validated payload to the
    same existing project a second time answers "updated" again and leaves
    the store exactly as the first update left it. *)
Theorem update_project_idempotent
    (project_id : string) (oid : ObjectId) (payload m : dict)
    (d : database) (l1 l2 : list dict) (doc : dict) :
  bson.parse project_id = Some oid →
  model_validate ProjectUpdate payload = inr m →
  coll d "project" = l1 ++ doc :: l2 →
  doc !! "_id" = Some (VObjectId oid) →
  absent oid l1 →
  update_project project_id payload (update_project project_id payload (Some d)).2
  = update_project project_id payload (Some d).
Proof.
  intros Hp Hm Hc Hid Ha.
  destruct (decide (pymongo.encodable m)) as [He|He].
  2:{ rewrite (update_project_refused _ _ _ _ _ Hp Hm He). cbn [snd].
      by rewrite (update_project_refused _ _ _ _ _ Hp Hm He). }
  rewrite (update_project_existing _ _ _ _ _ _ _ _ Hp Hm He Hc Hid Ha). cbn [snd].
  rewrite (update_project_existing _ oid _ m _ l1 (not_None_items m ∪ doc) l2 Hp Hm He).
  - rewrite set_coll_set_coll. do 4 f_equal.
    by rewrite (assoc_L (∪)), (idemp_L (∪)).
  - by rewrite coll_set_coll, decide_True.
  - rewrite lookup_union_r; [exact Hid|]. by eapply not_None_items_no_id.
  - exact Ha.
Qed.

Lemma set_first_ids flt upd docs :
  upd !! "_id" = None → ids (pymongo.set_first flt upd docs).1 = ids docs.
Proof.
  intros Hu. unfold ids.
  induction docs as [|d ds IH]; cbn [pymongo.set_first]; [reflexivity|].
  destruct (matches flt d).
  - cbn [fst fmap list_fmap]. f_equal. by apply lookup_union_r.
  - destruct (pymongo.set_first flt upd ds) as [ds' n]. cbn [fst] in *.
    cbn [fmap list_fmap]. f_equal. exact IH.
Qed.

(** X6. An update never adds, removes or re-identifies a document: for
    every identifier, payload and state, each collection holds the same
    identifiers in the same order afterwards, and every collection other
    than [project] is exactly as before. *)
Theorem update_project_keeps_ids
    (project_id : string) (payload : dict) (st : option database) (c : string) :
  ids (coll_of (update_project project_id payload st).2 c) = ids (coll_of st c)
  ∧ (c ≠ "project" → coll_of (update_project project_id payload st).2 c = coll_of st c).
Proof.
  destruct (model_validate ProjectUpdate payload) as [errs|m] eqn:Hm.
  { unfold update_project, mbind, M_bind. rewrite (validated_inl _ _ _ _ Hm). done. }
  destruct st as [d|].
  2:{ rewrite (update_project_disconnected _ _ _ Hm). done. }
  rewrite (update_project_connected _ _ _ _ Hm).
  destruct (bson.parse project_id) as [oid|]; [|done].
  case_decide as He; [|done]. cbv zeta.
  cbn [snd coll_of].
  destruct (collections d !! "project") as [docs|] eqn:E; [|done].
  rewrite coll_set_coll. case_decide as Hc.
  - subst c. split; [|done].
    by apply set_first_ids, not_None_items_no_id with payload.
  - done.
Qed.

(** ** Replacing the settings: what is kept *)

Lemma coll_cons_set_coll d cname doc docs :
  coll d cname = doc :: docs → set_coll d cname (doc :: docs) = d.
Proof.
  intros Hc. apply set_coll_same. unfold coll in Hc.
  destruct (collections d !! cname); [by rewrite <- Hc | discriminate].
Qed.

Lemma SiteSettings_no_id : "_id" ∉ name <$> SiteSettings.
Proof. apply (bool_decide_unpack _). vm_compute. exact I. Qed.

(** X7. Replacing the settings keeps what is not a settings field: the
    stored document keeps its ["_id"] and every key that names no field of
    SiteSettings, and the other documents of the collection are untouched. *)
Theorem upsert_keeps_other_keys
    (payload m : dict) (d : database) (existing : dict) (rest : list dict)
    (_id : value) :
  model_validate SiteSettings payload = inr m →
  coll d "sitesettings" = existing :: rest →
  existing !! "_id" = Some _id →
  ∃ doc',
    (upsert_settings payload (Some d)).2
    = Some (set_coll d "sitesettings" (doc' :: rest))
    ∧ doc' !! "_id" = Some _id
    ∧ ∀ k, k ∉ name <$> SiteSettings → doc' !! k = existing !! k.
Proof.
  intros Hm Hc Hid.
  rewrite (upsert_settings_on_existing _ _ _ _ _ _ Hm Hc Hid).
  case_decide as He.
  - exists (m ∪ existing).
    assert (∀ k, k ∉ name <$> SiteSettings → (m ∪ existing) !! k = existing !! k) as Hk.
    { intros k Hk. apply lookup_union_r. by eapply model_validate_lookup_None. }
    split; [reflexivity|]. split; [|exact Hk].
    rewrite Hk; [exact Hid | apply SiteSettings_no_id].
  - exists existing. cbn [snd]. split; [|done].
    by rewrite (coll_cons_set_coll _ _ _ _ Hc).
Qed.

(** ** The settings singleton *)

Lemma upsert_settings_first payload m d :
  model_validate SiteSettings payload = inr m →
  coll d "sitesettings" = [] →
  upsert_settings payload (Some d) =
    (Return (Obj {[ "status" := VStr "created";
                    "id" := VStr (bson.to_str (bson.fresh (counter d))) ]}),
     Some (pymongo.insert_one "sitesettings" m d).2).
Proof.
  intros Hm Hc. unfold upsert_settings, mbind, M_bind.
  rewrite (validated_inr _ _ _ _ Hm).
  unfold try_except, db_is_None, col_find_one, mbind, M_bind.
  rewrite bool_decide_eq_false_2 by discriminate.
  rewrite Hc. reflexivity.
Qed.

Lemma length_coll_set_coll d docs :
  length (coll (set_coll d "sitesettings" docs) "sitesettings") = length docs.
Proof. by rewrite coll_set_coll, decide_True. Qed.

(** X8. Under the store's guarantee that every stored document carries an
    ["_id"], the upsert keeps the settings collection a singleton: from at
    most one document it never goes to more than one, whatever the payload
    and whether or not a connection exists, and after an answer other than
    an error it holds exactly one. With an empty collection the validated
    payload is stored as the first document (with [create_document] as the
    spec describes it). *)
Theorem upsert_keeps_singleton (payload : dict) (st : option database) :
  settings_have_ids st →
  (settings_count st ≤ 1)%nat →
  (settings_count (upsert_settings payload st).2 ≤ 1)%nat
  ∧ (status_of (upsert_settings payload st).1 = Some 200 →
     settings_count (upsert_settings payload st).2 = 1%nat).
Proof.
  intros Hids Hle.
  destruct (model_validate SiteSettings payload) as [errs|m] eqn:Hm.
  { unfold upsert_settings, mbind, M_bind. rewrite (validated_inl _ _ _ _ Hm).
    cbn [fst snd status_of]. split; [exact Hle | discriminate]. }
  destruct st as [d|].
  { unfold settings_have_ids in Hids. cbn [coll_of settings_count] in *.
    destruct (coll d "sitesettings") as [|existing rest] eqn:Hc.
    - rewrite (upsert_settings_first _ _ _ Hm Hc). cbn [fst snd settings_count].
      rewrite coll_insert_one, decide_True, Hc by done. cbn. split; [lia | done].
    - apply Forall_cons in Hids as [[_id Hid] _].
      rewrite (upsert_settings_on_existing _ _ _ _ _ _ Hm Hc Hid).
      case_decide as He; cbn [fst snd settings_count status_of].
      + rewrite length_coll_set_coll.
        cbn [length] in *. split; [exact Hle | intros _; lia].
      + rewrite Hc. split; [exact Hle | discriminate]. }
  unfold upsert_settings, mbind, M_bind. rewrite (validated_inr _ _ _ _ Hm).
  cbn. split; [lia | discriminate].
Qed.

(** X9. What the upsert stores is what the next read returns: after an
    upsert with a payload that validates and whose integers fit in the 8
    bytes that bson can encode, on a connected store whose settings
    documents carry an ["_id"] and are themselves encodable, [get_settings]
    returns a document that binds every field of SiteSettings to the value
    of the validated model (with [get_documents] and [create_document] as
    the spec describes them). *)
Theorem upsert_then_get_settings (payload m : dict) (d : database) :
  model_validate SiteSettings payload = inr m →
  pymongo.encodable m →
  settings_have_ids (Some d) →
  settings_encodable (Some d) →
  ∃ b,
    (get_settings (upsert_settings payload (Some d)).2).1 = Return (Obj b)
    ∧ ∀ f, f ∈ SiteSettings → b !! name f = m !! name f.
Proof.
  intros Hm Hem Hids Henc. unfold settings_have_ids, settings_encodable in *.
  cbn [coll_of] in Hids, Henc.
  assert (∀ f, f ∈ SiteSettings → name f ≠ "_id") as Hne.
  { intros f Hf Heq. apply SiteSettings_no_id. rewrite <- Heq.
    apply list_elem_of_fmap. eauto. }
  destruct (coll d "sitesettings") as [|existing rest] eqn:Hc.
  - rewrite (upsert_settings_first _ _ _ Hm Hc). cbn [snd].
    erewrite get_settings_existing
      by (rewrite coll_insert_one, decide_True, Hc by done; reflexivity).
    eexists. split; [reflexivity|]. intros f Hf.
    rewrite stringify_id_lookup_ne by auto. apply lookup_insert_ne.
    intros Heq. by apply (Hne f Hf).
  - apply Forall_cons in Hids as [[_id Hid] _].
    apply Forall_cons in Henc as [Hex _].
    rewrite (upsert_settings_on_existing _ _ _ _ _ _ Hm Hc Hid).
    rewrite decide_True by (split; [exact (Hex "_id" _id Hid) | exact Hem]).
    cbn [snd].
    erewrite get_settings_existing
      by (rewrite coll_set_coll, decide_True by done; reflexivity).
    eexists. split; [reflexivity|]. intros f Hf.
    rewrite stringify_id_lookup_ne by auto.
    destruct (model_validate_field_ok _ _ _ _ SiteSettings_NoDup Hm Hf)
      as (v & _ & Hl).
    rewrite Hl. by apply lookup_union_Some_l.
Qed.

(** ** Creating projects *)

Lemma create_project_connected payload m d :
  model_validate Project payload = inr m →
  create_project payload (Some d) =
    (Return (Obj {[ "status" := VStr "created";
                    "id" := VStr (bson.to_str (bson.fresh (counter d))) ]}),
     Some (pymongo.insert_one "project" m d).2).
Proof.
  intros Hm. unfold create_project, mbind, M_bind.
  rewrite (validated_inr _ _ _ _ Hm). reflexivity.
Qed.

Lemma Project_NoDup : NoDup (name <$> Project).
Proof. apply (bool_decide_unpack _). vm_compute. exact I. Qed.

(** Validation of a string field without bounds, on a string input. *)
Lemma validate_plain_str_field k opt dflt p s :
  p !! k = Some (VStr s) →
  validate_field (Field k (Str None None) opt dflt) p = inr (VStr s).
Proof.
  intros Hk. unfold pydantic.validate_field. cbn [name ann optional field_default].
  by rewrite Hk.
Qed.

(** Validation of an absent field with a default. *)
Lemma validate_absent_field k a opt dv p :
  p !! k = None → validate_field (Field k a opt (Some dv)) p = inr dv.
Proof.
  intros Hk. unfold pydantic.validate_field. cbn [name field_default].
  by rewrite Hk.
Qed.

(** X10. A project payload that gives [title], [tag] and [image_url] as
    strings and nothing for the other fields is accepted, and on a
    connected store exactly one document is added at the end of the
    [project] collection: the three strings as given, [description],
    [case_study_url] and [order] null, [featured] false, under a fresh
    ["_id"] whose string form is the returned id (with [create_document] as
    the spec describes it). *)
Theorem create_project_fills_defaults
    (payload : dict) (d : database) (title tag image_url : string) :
  payload !! "title" = Some (VStr title) →
  payload !! "tag" = Some (VStr tag) →
  payload !! "image_url" = Some (VStr image_url) →
  payload !! "description" = None →
  payload !! "case_study_url" = None →
  payload !! "featured" = None →
  payload !! "order" = None →
  ∃ m d',
    create_project payload (Some d) =
      (Return (Obj {[ "status" := VStr "created";
                      "id" := VStr (bson.to_str (bson.fresh (counter d))) ]}),
       Some d')
    ∧ coll d' "project" =
        coll d "project" ++ [<["_id" := VObjectId (bson.fresh (counter d))]> m]
    ∧ m !! "title" = Some (VStr title)
    ∧ m !! "tag" = Some (VStr tag)
    ∧ m !! "image_url" = Some (VStr image_url)
    ∧ m !! "description" = Some VNone
    ∧ m !! "case_study_url" = Some VNone
    ∧ m !! "featured" = Some (VBool false)
    ∧ m !! "order" = Some VNone
    ∧ ∀ k, k ∉ name <$> Project → m !! k = None.
Proof.
  intros Ht Hg Hi Hd Hc Hf Ho.
  pose proof (validate_plain_str_field "title" false None payload title Ht) as V1.
  pose proof (validate_plain_str_field "tag" false None payload tag Hg) as V2.
  pose proof (validate_plain_str_field "image_url" false None payload image_url Hi) as V3.
  pose proof (validate_absent_field "description" (Str None None) true VNone payload Hd) as V4.
  pose proof (validate_absent_field "case_study_url" (Str None None) true VNone payload Hc) as V5.
  pose proof (validate_absent_field "featured" Bool false (VBool false) payload Hf) as V6.
  pose proof (validate_absent_field "order" (Int (Some 0)) true VNone payload Ho) as V7.
  destruct (model_validate_all_ok Project payload) as [m Hm].
  { intros f Hin. unfold Project in Hin.
    repeat (apply elem_of_cons in Hin as [->|Hin]); try (by eexists). inversion Hin. }
  assert (∀ f v, f ∈ Project → validate_field f payload = inr v →
                 m !! name f = Some v) as Hl.
  { intros f v Hin Hv.
    destruct (model_validate_field_ok _ _ _ _ Project_NoDup Hm Hin) as (v' & Hv' & Hl).
    congruence. }
  exists m, (pymongo.insert_one "project" m d).2.
  split; [by apply create_project_connected|].
  split; [by rewrite coll_insert_one, decide_True|].
  repeat split.
  - apply (Hl _ _ ltac:(left) V1).
  - apply (Hl _ _ ltac:(right; left) V2).
  - apply (Hl _ _ ltac:(do 2 right; left) V3).
  - apply (Hl _ _ ltac:(do 3 right; left) V4).
  - apply (Hl _ _ ltac:(do 4 right; left) V5).
  - apply (Hl _ _ ltac:(do 5 right; left) V6).
  - apply (Hl _ _ ltac:(do 6 right; left) V7).
  - intros k Hk. by eapply model_validate_lookup_None.
Qed.


(** ** Identifiers: from [str] back to [ObjectId] *)






(** * Further properties of the schemas *)

Lemma NoDup_fmap_eq {A B} (g : A → B) (l : list A) x y :
  NoDup (g <$> l) → x ∈ l → y ∈ l → g x = g y → x = y.
Proof.
  induction l as [|a l IH]; intros Hnd Hx Hy Hg; [inversion Hx|].
  rewrite fmap_cons in Hnd. apply NoDup_cons in Hnd as [Ha Hnd].
  apply elem_of_cons in Hx as [->|Hx]; apply elem_of_cons in Hy as [->|Hy].
  - reflexivity.
  - destruct Ha. rewrite Hg. apply list_elem_of_fmap. eauto.
  - destruct Ha. rewrite <- Hg. apply list_elem_of_fmap. eauto.
  - by apply IH.
Qed.

(** With distinct field names, a rejection at a name comes from the field
    of that name. *)
Lemma rejected_at_unique fs p f :
  NoDup (name <$> fs) → f ∈ fs →
  (rejected_at fs p (name f) ↔ ∃ t, validate_field f p = inl (Error (name f) t)).
Proof.
  intros Hnd Hf. rewrite rejected_at_field. split.
  - intros (g & t & Hg & He). exists t.
    pose proof (validate_field_loc _ _ _ He) as Hloc. cbn [loc] in Hloc.
    pose proof (NoDup_fmap_eq name fs f g Hnd Hf Hg Hloc) as Heq.
    subst g. exact He.
  - intros (t & Ht). eauto.
Qed.

Lemma ContactMessage_NoDup : NoDup (name <$> ContactMessage).
Proof. apply (bool_decide_unpack _). vm_compute. exact I. Qed.

(** X13. A project payload that lacks [title], [tag] or [image_url] is
    answered 422 with a "missing" error at that field, in every state and
    without any change to it. *)
Theorem create_project_requires_fields
    (payload : dict) (k : string) (st : option database) :
  k ∈ ["title"; "tag"; "image_url"] →
  payload !! k = None →
  ∃ errs,
    create_project payload st = (Raise (HTTPException 422 (Errors errs)), st)
    ∧ Error k missing ∈ errs.
Proof.
  intros Hk Hnone.
  assert (∃ f, f ∈ Project ∧ validate_field f payload = inl (Error k missing))
    as (f & Hf & Hv).
  { repeat (apply elem_of_cons in Hk as [->|Hk]); [| | |inversion Hk].
    - eexists. split; [left|].
      unfold pydantic.validate_field. cbn [name field_default]. by rewrite Hnone.
    - eexists. split; [right; left|].
      unfold pydantic.validate_field. cbn [name field_default]. by rewrite Hnone.
    - eexists. split; [right; right; left|].
      unfold pydantic.validate_field. cbn [name field_default]. by rewrite Hnone. }
  destruct (model_validate_field_error _ _ _ _ Hf Hv) as (errs & Herrs & Hin).
  exists errs. split; [|exact Hin].
  unfold create_project, mbind, M_bind. by rewrite (validated_inl _ _ _ _ Herrs).
Qed.

Lemma validate_int_field k opt dflt p z :
  p !! k = Some (VInt z) →
  validate_field (Field k (Int (Some 0)) opt dflt) p =
    if decide (z < 0) then inl (Error k greater_than_equal) else inr (VInt z).
Proof.
  intros Hk. unfold pydantic.validate_field. cbn [name ann optional field_default].
  rewrite Hk. cbn [pydantic.validate_ann]. unfold check_int.
  destruct (Z.ltb_spec z 0); case_decide; try reflexivity; lia.
Qed.

Lemma int_field_bound fs k dflt p z :
  NoDup (name <$> fs) → Field k (Int (Some 0)) true dflt ∈ fs →
  p !! k = Some (VInt z) →
  (rejected_at fs p k ↔ z < 0)
  ∧ (∀ m, model_validate fs p = inr m → m !! k = Some (VInt z)).
Proof.
  intros Hnd Hf Hk. pose proof (validate_int_field k true dflt p z Hk) as V. split.
  - rewrite (rejected_at_unique fs p _ Hnd Hf). cbn [name]. rewrite V. split.
    + intros (t & Ht). case_decide; [done | discriminate].
    + intros Hz. rewrite decide_True by done. eauto.
  - intros m Hm.
    destruct (model_validate_field_ok _ _ _ _ Hnd Hm Hf) as (v & Hv & Hl).
    cbn [name] in Hl. rewrite V in Hv. case_decide; by simplify_eq.
Qed.

(** X14. The numeric bounds are inclusive lower bounds at zero with no
    upper bound: an integer given for [stat_projects], [stat_clients] or
    [stat_awards] of SiteSettings, or for [order] of Project or
    ProjectUpdate, is rejected at that field exactly when it is negative,
    and an accepted model holds the integer as given. *)
Theorem nonnegative_int_bounds (fs : schema) (k : string) (payload : dict) (z : Z) :
  (fs, k) ∈ [(SiteSettings, "stat_projects"); (SiteSettings, "stat_clients");
             (SiteSettings, "stat_awards"); (Project, "order");
             (ProjectUpdate, "order")] →
  payload !! k = Some (VInt z) →
  (rejected_at fs payload k ↔ z < 0)
  ∧ (∀ m, model_validate fs payload = inr m → m !! k = Some (VInt z)).
Proof.
  intros Hin Hk.
  repeat (apply elem_of_cons in Hin as [Heq|Hin]; [injection Heq as -> ->|]);
    [ apply (int_field_bound _ _ (Some (VInt 0)) _ _ SiteSettings_NoDup)
    | apply (int_field_bound _ _ (Some (VInt 0)) _ _ SiteSettings_NoDup)
    | apply (int_field_bound _ _ (Some (VInt 0)) _ _ SiteSettings_NoDup)
    | apply (int_field_bound _ _ (Some VNone) _ _ Project_NoDup)
    | apply (int_field_bound _ _ (Some VNone) _ _ ProjectUpdate_NoDup)
    | inversion Hin ];
    try exact Hk; unfold SiteSettings, Project, ProjectUpdate;
    apply list_elem_of_In; cbn; tauto.
Qed.

(** X15. The optional strings of ContactMessage have inclusive upper bounds
    only: a string given for [company] (bound 200) or [phone] (bound 50) is
    rejected at that field exactly when it is longer than the bound, the
    empty string included among the accepted; an absent or null value is
    never rejected there. *)
Theorem contact_optional_bounds (payload : dict) (k : string) (hi : Z) :
  (k, hi) ∈ [("company", 200); ("phone", 50)] →
  (∀ s, payload !! k = Some (VStr s) →
        (rejected_at ContactMessage payload k ↔ hi < len s))
  ∧ (payload !! k = None ∨ payload !! k = Some VNone →
     ¬ rejected_at ContactMessage payload k).
Proof.
  intros Hin.
  assert (Field k (Str None (Some hi)) true (Some VNone) ∈ ContactMessage) as Hf.
  { repeat (apply elem_of_cons in Hin as [Heq|Hin]; [injection Heq as -> ->|]);
      [| |inversion Hin]; unfold ContactMessage; apply list_elem_of_In; cbn; tauto. }
  pose proof (rejected_at_unique ContactMessage payload _ ContactMessage_NoDup Hf) as R.
  cbn [name] in R. split.
  - intros s Hs. rewrite R. unfold pydantic.validate_field.
    cbn [name ann optional field_default]. rewrite Hs. cbn [pydantic.validate_ann].
    rewrite check_str_max. split.
    + intros (t & Ht). case_decide; [done | discriminate].
    + intros Hlen. rewrite decide_True by done. eauto.
  - intros Hnull. rewrite R. intros (t & Ht).
    destruct (validate_opt_str_field k hi payload) as [v Hv]; [|congruence].
    unfold optional_str_ok. tauto.
Qed.

(** X16. Known fields are strict about their type: in each of the four
    record types, a value that is not a string, given for a field that
    takes a string ([str] or [EmailStr]), is rejected at that field with a
    type error; null is such a value unless the field is optional. *)
Theorem string_fields_reject_non_strings
    (fs : schema) (f : field) (payload : dict) (v : value) :
  fs ∈ [ContactMessage; SiteSettings; Project; ProjectUpdate] →
  f ∈ fs → takes_string (ann f) →
  payload !! name f = Some v →
  (∀ s, v ≠ VStr s) →
  (v = VNone → optional f = false) →
  ∃ errs, model_validate fs payload = inl errs ∧ Error (name f) string_type ∈ errs.
Proof.
  intros _ Hf Ht Hv Hns Hopt.
  apply model_validate_field_error with f; [exact Hf|].
  unfold pydantic.validate_field. rewrite Hv.
  destruct (ann f) as [lo hi| |ge|]; try done;
    destruct v; try (by destruct (Hns s));
    try rewrite (Hopt eq_refl); reflexivity.
Qed.

(** * The diagnostic endpoint *)

(** X17. When the import gives a handle and the listing succeeds, the
    diagnostic report lists exactly the first ten names that the store
    listed (all of them when there are fewer). It never lists more than ten
    collections, and lists any only in that case. *)
Theorem test_database_collections_capped
    (imp : diagnostics.import_result) (getenv : string → option string) :
  let r := diagnostics.test_database imp getenv in
  (∀ db names,
      imp = diagnostics.Imported (Some db) →
      diagnostics.list_collection_names db = inr names →
      diagnostics.collections r = take 10 names)
  ∧ (length (diagnostics.collections r) ≤ 10)%nat
  ∧ (diagnostics.collections r ≠ [] →
     ∃ db names,
       imp = diagnostics.Imported (Some db)
       ∧ diagnostics.list_collection_names db = inr names
       ∧ diagnostics.collections r = take 10 names).
Proof.
  destruct imp as [[[nm [msg|names]]|]| |msg]; cbn; repeat split;
    try lia; try done;
    try (intros db names' Hdb Hl; simplify_eq; cbn in Hl; by simplify_eq).
  - rewrite length_take. lia.
  - intros _. by eexists _, _.
Qed.

(** X18. In the diagnostic report the entries [database_url] and
    [database_name] tell only whether the environment variables
    [DATABASE_URL] and [DATABASE_NAME] hold a non-empty value: what the
    connected branch wrote there (the store's own name among it) never
    reaches the caller. The entry [connection_status] is "Connected"
    exactly when the import gave a handle that is not [None]. *)
Theorem test_database_reports_environment
    (imp : diagnostics.import_result) (getenv : string → option string) :
  let r := diagnostics.test_database imp getenv in
  diagnostics.database_url r
  = Some (if truthy_opt_str (getenv "DATABASE_URL") then "✅ Set" else "❌ Not Set")
  ∧ diagnostics.database_name r
    = Some (if truthy_opt_str (getenv "DATABASE_NAME") then "✅ Set" else "❌ Not Set")
  ∧ (diagnostics.connection_status r = "Connected"
     ↔ ∃ db, imp = diagnostics.Imported (Some db)).
Proof.
  destruct imp as [[[nm [msg|names]]|]| |msg]; cbn; repeat split;
    try (intros H; discriminate H); try (intros [db H]; discriminate H);
    try (intros _; by eexists).
Qed.

End Properties.

(** * Concrete instances *)

Section Instances.

Local Abbreviation model_validate :=
  (model_validate example_validate_email example_lax_int example_lax_bool).
Local Abbreviation rejected_at :=
  (rejected_at example_validate_email example_lax_int example_lax_bool).
Local Abbreviation submit_contact :=
  (submit_contact example_validate_email example_lax_int example_lax_bool).
Local Abbreviation get_settings :=
  (get_settings example_validate_email example_lax_int example_lax_bool).
Local Abbreviation upsert_settings :=
  (upsert_settings example_validate_email example_lax_int example_lax_bool).
Local Abbreviation update_project :=
  (update_project example_validate_email example_lax_int example_lax_bool).

(** The partial update law of the spec: [{"featured": true}] on a stored
    project changes [featured] and nothing else. *)
Example partial_update_featured :
  update_project Ex.zeros_str Ex.set_featured (Some Ex.one_project_db) =
    (Return (Obj {[ "status" := VStr "updated" ]}),
     Some (Database
             {[ "project" := [<["featured" := VBool true]> (Ex.project Ex.zeros "Web")] ]}
             1)).
Proof. reflexivity. Qed.

Ltac not_a_field Hk :=
  cbn in Hk; repeat (apply elem_of_cons in Hk as [->|Hk]); try reflexivity;
  inversion Hk.

(** C1 at its failing input, with the stand-in parameters. *)
Example missing_project_answers_500_example :
  update_project Ex.zeros_str ∅ (Some Ex.empty_db) =
    (Raise (HTTPException 500 (StrOf (HTTPException 404 (Text "Project not found")))),
     Some Ex.empty_db).
Proof. reflexivity. Qed.

(** C2 on the stored example project and [{"featured": true}]. *)
Lemma update_overwrites_given_fields_witness :
  ∃ doc',
    update_project Ex.zeros_str Ex.set_featured (Some Ex.one_project_db) =
      (Return (Obj {[ "status" := VStr "updated" ]}),
       Some (set_coll Ex.one_project_db "project" ([] ++ doc' :: [])))
    ∧ (∀ k, doc' !! k =
              if decide (k ∈ name <$> ProjectUpdate ∧ given Ex.set_featured k)
              then Ex.set_featured_model !! k else Ex.project Ex.zeros "Web" !! k)
    ∧ (∀ k, k ∈ name <$> ProjectUpdate → given Ex.set_featured k →
            ∃ v, Ex.set_featured_model !! k = Some v ∧ v ≠ VNone)
    ∧ (∀ f v, f ∈ ProjectUpdate → Ex.set_featured !! name f = Some v →
              native (ann f) v → Ex.set_featured_model !! name f = Some v).
Proof.
  refine (proj1 (update_overwrites_given_fields
                   example_validate_email example_lax_int example_lax_bool
                   Ex.zeros_str Ex.zeros Ex.set_featured Ex.set_featured_model
                   Ex.one_project_db [] [] (Ex.project Ex.zeros "Web")
                   _ _ _ _ _) _).
  - reflexivity.
  - reflexivity.
  - reflexivity.
  - reflexivity.
  - constructor.
  - apply (bool_decide_unpack _). vm_compute. exact I.
Defined.

(** C2: an [order] of 2^63 validates and is given, yet the stored project
    is not overwritten and the answer is not "updated". *)
Lemma update_refuses_order_beyond_int64 :
  model_validate ProjectUpdate MoreEx.huge_order = inr MoreEx.huge_order_model
  ∧ given MoreEx.huge_order "order"
  ∧ coll Ex.one_project_db "project" = [Ex.project Ex.zeros "Web"]
  ∧ update_project Ex.zeros_str MoreEx.huge_order (Some Ex.one_project_db)
    = (Raise MoreEx.overflow, Some Ex.one_project_db)
  ∧ Ex.project Ex.zeros "Web" !! "order" = Some VNone.
Proof.
  split; [reflexivity|]. split; [|split; [reflexivity|split; [|reflexivity]]].
  - eexists. split; [reflexivity | discriminate].
  - apply (update_project_refused
             example_validate_email example_lax_int example_lax_bool
             _ Ex.zeros _ MoreEx.huge_order_model); [reflexivity | reflexivity |].
    intros H. by apply (bool_decide_pack _) in H.
Qed.

(** C3: on an empty store the first two answers differ. *)
Lemma get_settings_first_two_answers_differ :
  (get_settings (Some Ex.empty_db)).1
  ≠ (get_settings (get_settings (Some Ex.empty_db)).2).1.
Proof.
  destruct (SiteSettings_default_model
              example_validate_email example_lax_int example_lax_bool)
    as (dflt & Hd & Hid).
  assert (coll Ex.empty_db "sitesettings" = []) as Hc by reflexivity.
  rewrite (get_settings_first _ _ _ Ex.empty_db dflt Hc Hd). cbn [fst snd].
  erewrite get_settings_existing
    by (rewrite coll_insert_one, decide_True, Hc by done; reflexivity).
  cbn [fst]. intros H.
  apply (f_equal (λ r, match r with
                       | Return (Obj b) => b !! "_id"
                       | _ => None
                       end)) in H.
  cbn beta iota in H. unfold stringify_id in H.
  rewrite lookup_insert_eq, Hid in H. discriminate.
Qed.

(** C3 (as amended) on the empty store. *)
Lemma get_settings_repeated_witness :
  ∃ dflt,
    model_validate SiteSettings ∅ = inr dflt
    ∧ dflt !! "_id" = None
    ∧ (get_settings (Some Ex.empty_db)).1 = Return (Obj dflt)
    ∧ (get_settings (get_settings (Some Ex.empty_db)).2).1
      = Return (Obj (<["_id" := VStr (bson.to_str (bson.fresh (counter Ex.empty_db)))]> dflt))
    ∧ settings_count (get_settings (Some Ex.empty_db)).2 = 1%nat.
Proof.
  apply (proj1 (proj2 (proj2 (proj2 (get_settings_repeated
           example_validate_email example_lax_int example_lax_bool
           (Some Ex.empty_db))))) Ex.empty_db).
  - reflexivity.
  - reflexivity.
Defined.

(** C4 on a valid payload and on one without [email]. *)
Lemma submit_contact_persists_or_rejects_witness :
  (∃ d',
      submit_contact Ex.contact (Some Ex.empty_db) =
        (Return (Obj {[ "status" := VStr "ok";
                        "id" := VStr (bson.to_str (bson.fresh (counter Ex.empty_db))) ]}),
         Some d')
      ∧ bson.to_str (bson.fresh (counter Ex.empty_db)) ≠ EmptyString
      ∧ coll d' "contactmessage" =
          coll Ex.empty_db "contactmessage"
            ++ [<["_id" := VObjectId (bson.fresh (counter Ex.empty_db))]> Ex.contact_model]
      ∧ ∀ c, c ≠ "contactmessage" → coll d' c = coll Ex.empty_db c)
  ∧ (∃ errs t,
        submit_contact Ex.contact_without_email None
        = (Raise (HTTPException 422 (Errors errs)), None)
        ∧ Error "email" t ∈ errs).
Proof.
  split.
  - apply (proj1 (submit_contact_persists_or_rejects
             example_validate_email example_lax_int example_lax_bool
             Ex.contact (Some Ex.empty_db)) Ex.contact_model Ex.empty_db).
    + reflexivity.
    + reflexivity.
  - apply (proj2 (submit_contact_persists_or_rejects
             example_validate_email example_lax_int example_lax_bool
             Ex.contact_without_email None) "email").
    apply missing_required.
    + right. left.
    + reflexivity.
Defined.

(** C5: an identifier that does not parse is answered neither 404 nor any
    other client error. *)
Lemma unparsable_id_is_no_client_error :
  ¬ client_error (delete_project "xyz" (Some Ex.empty_db)).1
  ∧ ¬ client_error (update_project "xyz" ∅ (Some Ex.empty_db)).1.
Proof.
  split; intros (s & Hs & Hr); vm_compute in Hs; simplify_eq; lia.
Qed.

(** C5 (as amended) at ["xyz"]. *)
Lemma unparsable_id_answers_500_witness :
  delete_project "xyz" (Some Ex.empty_db)
  = (Raise (HTTPException 500 (StrOf (InvalidId "xyz"))), Some Ex.empty_db)
  ∧ ∀ payload m,
      model_validate ProjectUpdate payload = inr m →
      update_project "xyz" payload (Some Ex.empty_db)
      = (Raise (HTTPException 500 (StrOf (InvalidId "xyz"))), Some Ex.empty_db).
Proof.
  apply (unparsable_id_answers_500
           example_validate_email example_lax_int example_lax_bool
           "xyz" (Some Ex.empty_db)).
  reflexivity.
Defined.

(** C6 on the spec's example: tags Web, AI, Web and the filter Web. *)
Lemma list_projects_filters_by_tag_witness :
  ∃ items,
    list_projects (Some "Web") (Some Ex.three_projects_db)
    = (Return (Arr items), Some Ex.three_projects_db)
    ∧ items = stringify_id <$>
                filter (λ doc : dict, doc !! "tag" = Some (VStr "Web"))
                  (coll Ex.three_projects_db "project")
    ∧ (∀ it, it ∈ items → it !! "tag" = Some (VStr "Web"))
    ∧ (∀ doc, doc ∈ coll Ex.three_projects_db "project" →
              doc !! "tag" = Some (VStr "Web") → stringify_id doc ∈ items)
    ∧ list_projects None (Some Ex.three_projects_db)
      = (Return (Arr (stringify_id <$> coll Ex.three_projects_db "project")),
         Some Ex.three_projects_db).
Proof.
  apply (list_projects_filters_by_tag Ex.three_projects_db "Web").
  discriminate.
Defined.

(** The two matching documents of the spec's example. *)
Example list_projects_web :
  list_projects (Some "Web") (Some Ex.three_projects_db)
  = (Return (Arr [stringify_id (Ex.project (bson.fresh 0) "Web");
                  stringify_id (Ex.project (bson.fresh 2) "Web")]),
     Some Ex.three_projects_db).
Proof. reflexivity. Qed.

(** C7 at the lower bounds: a name of 2 and a message of 10 characters. *)
Lemma contact_length_bounds_inclusive_witness :
  (rejected_at ContactMessage Ex.contact "name" ↔ (len "Al" < 2 ∨ 120 < len "Al"))
  ∧ (rejected_at ContactMessage Ex.contact "message"
     ↔ (len "0123456789" < 10 ∨ 5000 < len "0123456789"))
  ∧ (∀ m, model_validate ContactMessage Ex.contact = inr m →
          m !! "name" = Some (VStr "Al") ∧ m !! "message" = Some (VStr "0123456789"))
  ∧ (2 ≤ len "Al" ≤ 120 → 10 ≤ len "0123456789" ≤ 5000 →
     email_ok example_validate_email Ex.contact →
     optional_str_ok Ex.contact "company" 200 → optional_str_ok Ex.contact "phone" 50 →
     ∃ m, model_validate ContactMessage Ex.contact = inr m).
Proof.
  apply (contact_length_bounds_inclusive
           example_validate_email example_lax_int example_lax_bool
           Ex.contact "Al" "0123456789").
  - reflexivity.
  - reflexivity.
Defined.

(** The four boundary lengths of the name, and the four of the message. *)
Example name_length_boundaries :
  let with_name n := <["name" := VStr n]> Ex.contact in
  let a120 := String.concat EmptyString (replicate 120 "a") in
  model_validate ContactMessage (with_name "Al") = inr (<["name" := VStr "Al"]> Ex.contact_model)
  ∧ model_validate ContactMessage (with_name a120) = inr (<["name" := VStr a120]> Ex.contact_model)
  ∧ model_validate ContactMessage (with_name "A") = inl [Error "name" string_too_short]
  ∧ model_validate ContactMessage (with_name ("a" ++ a120)%string)
    = inl [Error "name" string_too_long].
Proof. repeat split; reflexivity. Qed.

Example message_length_boundaries :
  let with_message s := <["message" := VStr s]> Ex.contact in
  let a4990 := String.concat EmptyString (replicate 4990 "a") in
  model_validate ContactMessage (with_message "0123456789")
  = inr (<["message" := VStr "0123456789"]> Ex.contact_model)
  ∧ model_validate ContactMessage (with_message ("0123456789" ++ a4990)%string)
    = inr (<["message" := VStr ("0123456789" ++ a4990)%string]> Ex.contact_model)
  ∧ model_validate ContactMessage (with_message "012345678")
    = inl [Error "message" string_too_short]
  ∧ model_validate ContactMessage (with_message ("0123456789a" ++ a4990)%string)
    = inl [Error "message" string_too_long].
Proof. repeat split; reflexivity. Qed.

(** C8 on an update payload with two unknown keys. *)
Lemma unknown_keys_ignored_witness :
  model_validate ProjectUpdate (Ex.unknown_keys ∪ Ex.set_featured)
  = inr Ex.set_featured_model
  ∧ ∀ k, is_Some (Ex.unknown_keys !! k) → Ex.set_featured_model !! k = None.
Proof.
  apply (unknown_keys_ignored
           example_validate_email example_lax_int example_lax_bool
           ProjectUpdate Ex.set_featured Ex.unknown_keys Ex.set_featured_model).
  - right. right. right. left.
  - intros k Hk. not_a_field Hk.
  - reflexivity.
Defined.

(** C9 on a stored document with its own title and the payload
    [{"city": "Goa"}]. *)
Lemma upsert_overwrites_every_field_witness :
  upsert_settings Ex.set_city (Some Ex.settings_db) =
    (Return (Obj {[ "status" := VStr "updated" ]}),
     Some (set_coll Ex.settings_db "sitesettings"
             ((Ex.set_city_model ∪ Ex.old_settings) :: [])))
  ∧ (∀ f, f ∈ SiteSettings →
          is_Some (Ex.set_city_model !! name f)
          ∧ (Ex.set_city_model ∪ Ex.old_settings) !! name f = Ex.set_city_model !! name f
          ∧ (Ex.set_city !! name f = None → Ex.set_city_model !! name f = field_default f))
  ∧ (Ex.set_city !! "hero_title" = None →
     (Ex.set_city_model ∪ Ex.old_settings) !! "hero_title"
     = Some (VStr "INNOVATE. BUILD. TRANSFORM WITH AXIOM.")).
Proof.
  refine (proj1 (upsert_overwrites_every_field
                   example_validate_email example_lax_int example_lax_bool
                   Ex.set_city Ex.set_city_model Ex.settings_db Ex.old_settings []
                   (VObjectId Ex.zeros) _ _ _ _) _).
  - reflexivity.
  - reflexivity.
  - reflexivity.
  - exact I.
  - apply (bool_decide_unpack _). vm_compute. exact I.
Defined.

(** C9: a [stat_projects] of 2^63 validates, yet the stored document keeps
    its own title (the omitted [hero_title] is not reset) and the answer is
    not "updated". *)
Lemma upsert_refuses_stat_beyond_int64 :
  model_validate SiteSettings MoreEx.huge_stat = inr MoreEx.huge_stat_model
  ∧ MoreEx.huge_stat !! "hero_title" = None
  ∧ coll Ex.settings_db "sitesettings" = [Ex.old_settings]
  ∧ upsert_settings MoreEx.huge_stat (Some Ex.settings_db)
    = (Raise MoreEx.overflow, Some Ex.settings_db)
  ∧ Ex.old_settings !! "hero_title" = Some (VStr "Old title").
Proof.
  split; [reflexivity|]. split; [reflexivity|]. split; [reflexivity|].
  split; [|reflexivity].
  rewrite (upsert_settings_on_existing
             example_validate_email example_lax_int example_lax_bool
             MoreEx.huge_stat MoreEx.huge_stat_model Ex.settings_db Ex.old_settings []
             (VObjectId Ex.zeros)) by reflexivity.
  rewrite decide_False; [reflexivity|].
  intros [_ H]. by apply (bool_decide_pack _) in H.
Qed.

(** ** Instances of the further properties *)

Local Abbreviation create_project :=
  (create_project example_validate_email example_lax_int example_lax_bool).

(** X2 at a negative [order], an identifier that does not parse and no
    connection. *)
Lemma invalid_payload_answers_422_first_witness :
  update_project "xyz" MoreEx.negative_order None
  = (Raise (HTTPException 422 (Errors [Error "order" greater_than_equal])), None).
Proof.
  apply (proj2 (proj2 (invalid_payload_answers_422_first
           example_validate_email example_lax_int example_lax_bool
           "xyz" MoreEx.negative_order None))).
  reflexivity.
Defined.

(** X3 at the empty update and an identifier that does not parse. *)
Lemma store_unavailable_answers_500_witness :
  update_project "xyz" ∅ None
  = (Raise (HTTPException 500 (StrOf (Exception "Database not available"))), None).
Proof.
  apply (proj1 (proj2 (store_unavailable_answers_500
           example_validate_email example_lax_int example_lax_bool "xyz" ∅))
           MoreEx.empty_update_model).
  reflexivity.
Defined.

(** X4 on the store with one project. *)
Lemma delete_removes_exactly_one_witness :
  ∃ d',
    delete_project Ex.zeros_str (Some Ex.one_project_db)
    = (Return (Obj {[ "status" := VStr "deleted" ]}), Some d')
    ∧ coll d' "project" = [] ++ []
    ∧ (∀ c, c ≠ "project" → coll d' c = coll Ex.one_project_db c)
    ∧ delete_project Ex.zeros_str (Some d')
      = (Raise (HTTPException 500 (StrOf (HTTPException 404 (Text "Project not found")))),
         Some d').
Proof.
  apply (delete_removes_exactly_one Ex.zeros_str Ex.zeros Ex.one_project_db
           [] [] (Ex.project Ex.zeros "Web")).
  - reflexivity.
  - reflexivity.
  - reflexivity.
  - constructor.
  - constructor.
Defined.

(** X5 on the stored example project and [{"featured": true}]. *)
Lemma update_project_idempotent_witness :
  update_project Ex.zeros_str Ex.set_featured
    (update_project Ex.zeros_str Ex.set_featured (Some Ex.one_project_db)).2
  = update_project Ex.zeros_str Ex.set_featured (Some Ex.one_project_db).
Proof.
  apply (update_project_idempotent
           example_validate_email example_lax_int example_lax_bool
           Ex.zeros_str Ex.zeros Ex.set_featured Ex.set_featured_model
           Ex.one_project_db [] [] (Ex.project Ex.zeros "Web")).
  - reflexivity.
  - reflexivity.
  - reflexivity.
  - reflexivity.
  - constructor.
Defined.

(** X7 on the stored settings and [{"city": "Goa"}]. *)
Lemma upsert_keeps_other_keys_witness :
  ∃ doc',
    (upsert_settings Ex.set_city (Some Ex.settings_db)).2
    = Some (set_coll Ex.settings_db "sitesettings" (doc' :: []))
    ∧ doc' !! "_id" = Some (VObjectId Ex.zeros)
    ∧ ∀ k, k ∉ name <$> SiteSettings → doc' !! k = Ex.old_settings !! k.
Proof.
  apply (upsert_keeps_other_keys
           example_validate_email example_lax_int example_lax_bool
           Ex.set_city Ex.set_city_model Ex.settings_db Ex.old_settings []
           (VObjectId Ex.zeros)).
  - reflexivity.
  - reflexivity.
  - reflexivity.
Defined.

(** X8 on the stored settings. *)
Lemma upsert_keeps_singleton_witness :
  (settings_count (upsert_settings Ex.set_city (Some Ex.settings_db)).2 ≤ 1)%nat
  ∧ (status_of (upsert_settings Ex.set_city (Some Ex.settings_db)).1 = Some 200 →
     settings_count (upsert_settings Ex.set_city (Some Ex.settings_db)).2 = 1%nat).
Proof.
  apply (upsert_keeps_singleton
           example_validate_email example_lax_int example_lax_bool
           Ex.set_city (Some Ex.settings_db)).
  - constructor; [by eexists | constructor].
  - apply Nat.le_refl.
Defined.

(** X9 on the stored settings and [{"city": "Goa"}]. *)
Lemma upsert_then_get_settings_witness :
  ∃ b,
    (get_settings (upsert_settings Ex.set_city (Some Ex.settings_db)).2).1
    = Return (Obj b)
    ∧ ∀ f, f ∈ SiteSettings → b !! name f = Ex.set_city_model !! name f.
Proof.
  apply (upsert_then_get_settings
           example_validate_email example_lax_int example_lax_bool
           Ex.set_city Ex.set_city_model Ex.settings_db).
  - reflexivity.
  - apply (bool_decide_unpack _). vm_compute. exact I.
  - constructor; [by eexists | constructor].
  - constructor; [|constructor].
    apply (bool_decide_unpack _). vm_compute. exact I.
Defined.

(** X10 on the spec's example project. *)
Lemma create_project_fills_defaults_witness :
  ∃ m d',
    create_project MoreEx.new_project (Some Ex.empty_db) =
      (Return (Obj {[ "status" := VStr "created";
                      "id" := VStr (bson.to_str (bson.fresh (counter Ex.empty_db))) ]}),
       Some d')
    ∧ coll d' "project" =
        coll Ex.empty_db "project"
          ++ [<["_id" := VObjectId (bson.fresh (counter Ex.empty_db))]> m]
    ∧ m !! "title" = Some (VStr "Site Redesign")
    ∧ m !! "tag" = Some (VStr "Web")
    ∧ m !! "image_url" = Some (VStr "http://x/y.png")
    ∧ m !! "description" = Some VNone
    ∧ m !! "case_study_url" = Some VNone
    ∧ m !! "featured" = Some (VBool false)
    ∧ m !! "order" = Some VNone
    ∧ ∀ k, k ∉ name <$> Project → m !! k = None.
Proof.
  apply (create_project_fills_defaults
           example_validate_email example_lax_int example_lax_bool
           MoreEx.new_project Ex.empty_db "Site Redesign" "Web" "http://x/y.png");
    reflexivity.
Defined.



(** X13 on a payload with a title only, at [tag]. *)
Lemma create_project_requires_fields_witness :
  ∃ errs,
    create_project MoreEx.only_title None
    = (Raise (HTTPException 422 (Errors errs)), None)
    ∧ Error "tag" missing ∈ errs.
Proof.
  apply (create_project_requires_fields
           example_validate_email example_lax_int example_lax_bool
           MoreEx.only_title "tag" None).
  - right. left.
  - reflexivity.
Defined.

(** X14 at [order = 3] of a project. *)
Lemma nonnegative_int_bounds_witness :
  (rejected_at Project MoreEx.third_in_order "order" ↔ 3 < 0)
  ∧ (∀ m, model_validate Project MoreEx.third_in_order = inr m →
          m !! "order" = Some (VInt 3)).
Proof.
  apply (nonnegative_int_bounds
           example_validate_email example_lax_int example_lax_bool
           Project "order" MoreEx.third_in_order 3).
  - do 3 right. left.
  - reflexivity.
Defined.

(** X15 at [company] of the example contact. *)
Lemma contact_optional_bounds_witness :
  (∀ s, Ex.contact !! "company" = Some (VStr s) →
        (rejected_at ContactMessage Ex.contact "company" ↔ 200 < len s))
  ∧ (Ex.contact !! "company" = None ∨ Ex.contact !! "company" = Some VNone →
     ¬ rejected_at ContactMessage Ex.contact "company").
Proof.
  apply (contact_optional_bounds
           example_validate_email example_lax_int example_lax_bool
           Ex.contact "company" 200).
  left.
Defined.

(** X16 at a number given as the title of a project. *)
Lemma string_fields_reject_non_strings_witness :
  ∃ errs,
    model_validate Project MoreEx.numeric_title = inl errs
    ∧ Error "title" string_type ∈ errs.
Proof.
  apply (string_fields_reject_non_strings
           example_validate_email example_lax_int example_lax_bool
           Project MoreEx.title_field MoreEx.numeric_title (VInt 1)).
  - do 2 right. left.
  - left.
  - exact I.
  - reflexivity.
  - intros s. discriminate.
  - intros H. discriminate H.
Defined.

(** X17 on a handle that lists twelve collections. *)
Lemma test_database_collections_capped_witness :
  diagnostics.collections
    (diagnostics.test_database (diagnostics.Imported (Some twelve_collections))
       (λ _, None))
  = take 10 ["a"; "b"; "c"; "d"; "e"; "f"; "g"; "h"; "i"; "j"; "k"; "l"].
Proof.
  apply (proj1 (test_database_collections_capped
                  (diagnostics.Imported (Some twelve_collections)) (λ _, None))
           twelve_collections).
  - reflexivity.
  - reflexivity.
Defined.

(** Lengths count characters, not bytes: a one-character name outside
    ASCII is too short, and 61 such characters (122 bytes) are within the
    bound of 120. *)
Example name_length_counts_characters :
  let with_name n := <["name" := VStr n]> Ex.contact in
  let e61 := String.concat EmptyString (replicate 61 "é") in
  len "é" = 1
  ∧ model_validate ContactMessage (with_name "é") = inl [Error "name" string_too_short]
  ∧ len e61 = 61
  ∧ model_validate ContactMessage (with_name e61)
    = inr (<["name" := VStr e61]> Ex.contact_model).
Proof. repeat split; reflexivity. Qed.

(** The ten names reported out of twelve. *)
Example test_database_ten_of_twelve :
  diagnostics.collections
    (diagnostics.test_database (diagnostics.Imported (Some twelve_collections))
       (λ _, None))
  = ["a"; "b"; "c"; "d"; "e"; "f"; "g"; "h"; "i"; "j"].
Proof. reflexivity. Qed.

End Instances.
